(** * Tone.js instruments: Instrument, Monophonic and DuoSynth

    A shallow embedding of [Tone/instrument/Instrument.js],
    [Tone/instrument/DuoSynth.js] and the file that defines
    [Tone.Monophonic].

    The three classes are control code: they own references to signal
    stages built elsewhere in Tone.js and drive them by method calls.  The
    embedding keeps

    - the instance as a record of nullable fields (the object [this]),
    - the automation instructions a [Tone.Signal] owned by the instance
      has received, in call order,
    - a log of the calls made on the opaque collaborators (voices,
      envelopes, graph connections),
    - JavaScript exceptions, with the state reached when they are thrown.

    Numbers are IEEE binary64, as in JavaScript. *)

From Stdlib Require Import PrimFloat List String Bool.
Import ListNotations.
Open Scope string_scope.
Open Scope list_scope.
Set Warnings "-inexact-float".

(** ** JavaScript values *)

(** The values that reach these methods: notes are strings or numbers,
    times are strings, numbers or absent, velocities numbers or absent. *)
Inductive jsval : Type :=
| JUndefined
| JNumber (x : float)
| JString (s : string).

(** What a method hands back: [this] (all the chainable methods) or
    nothing (the empty placeholder bodies). *)
Inductive retval : Type :=
| RetThis
| RetUndefined.

(** [Tone.Type.*], the unit tag of a signal. *)
Inductive Units : Type :=
| Default
| Frequency
| Gain
| Decibels
| Positive.

(** ** Collaborators *)

Inductive voice_id : Type := V0 | V1.

(** The objects the instance talks to, named by the path that reaches
    them from [this].  The bindings on those paths are never re-bound
    between construction and [dispose], so a path names one object. *)
Inductive obj : Type :=
| OThis                                  (* the instrument itself *)
| OOutput                                (* this.output *)
| OOutputGain                            (* this.output.gain *)
| OVolume                                (* this.volume *)
| OFrequency                             (* this.frequency *)
| OHarmonicity                           (* this.harmonicity *)
| OVibrato                               (* this._vibrato *)
| OVibratoFrequency                      (* this._vibrato.frequency *)
| OVibratoGain                           (* this._vibratoGain *)
| OVibratoGainGain                       (* this._vibratoGain.gain *)
| OVibratoAmount                         (* this.vibratoAmount *)
| OVoice (i : voice_id)                  (* this.voice<i> *)
| OVoiceFrequency (i : voice_id)         (* this.voice<i>.frequency *)
| OVoiceDetune (i : voice_id)            (* this.voice<i>.detune *)
| OVoiceVolume (i : voice_id)            (* this.voice<i>.volume *)
| OVoiceEnvelope (i : voice_id)          (* this.voice<i>.envelope *)
| OVoiceFilterEnvelope (i : voice_id).   (* this.voice<i>.filterEnvelope *)

Scheme Equality for voice_id.
Scheme Equality for obj.

(** One call on a collaborator whose code is outside these files. *)
Inductive call : Type :=
| MethodCall (target : obj) (method : string) (args : list jsval)
| ConnectCall (src dst : obj).

(** The automation instructions of a scheduled parameter (the
    [AudioParam] vocabulary that [Tone.Signal] forwards). *)
Inductive automation : Type :=
| SetValueAtTime (value : jsval) (time : float)
| LinearRampToValueAtTime (value : jsval) (time : float)
| ExponentialRampToValueAtTime (value : jsval) (time : float)
| CancelScheduledValues (time : float).

(** [new Tone.Signal(number, units)]: a signal that holds its own value.
    [sig_value] is what the [value] getter reads; scheduling calls are
    appended to [sig_automation] and change nothing else until the
    renderer reaches them. *)
Record Signal : Type := mkSignal {
  sig_value : jsval;
  sig_units : Units;
  sig_automation : list automation
}.

Definition Signal_new (value : float) (units : Units) : Signal :=
  {| sig_value := JNumber value; sig_units := units; sig_automation := [] |}.

(** [new Tone.Signal(param, units)]: a signal that wraps an existing
    [AudioParam].  [ps_written] is the last value assigned through the
    [value] setter, [None] while the parameter still has the level its
    node gave it. *)
Record ParamSignal : Type := mkParamSignal {
  ps_param : obj;
  ps_units : Units;
  ps_written : option jsval
}.

Definition ParamSignal_new (param : obj) (units : Units) : ParamSignal :=
  {| ps_param := param; ps_units := units; ps_written := None |}.

Definition ParamSignal_set_value (v : jsval) (s : ParamSignal) : ParamSignal :=
  {| ps_param := ps_param s; ps_units := ps_units s; ps_written := Some v |}.

(** [new Tone.LFO(frequency, min, max)] and its [start()]. *)
Record LFO : Type := mkLFO {
  lfo_frequency : jsval;
  lfo_min : float;
  lfo_max : float;
  lfo_started : bool
}.

Definition LFO_new (rate : jsval) (lo hi : float) : LFO :=
  {| lfo_frequency := rate; lfo_min := lo; lfo_max := hi; lfo_started := false |}.

Definition LFO_start (l : LFO) : LFO :=
  {| lfo_frequency := lfo_frequency l; lfo_min := lfo_min l;
     lfo_max := lfo_max l; lfo_started := true |}.

(** [new Tone.Multiply(value)] and its [units] property. *)
Record Multiply : Type := mkMultiply {
  mul_value : jsval;
  mul_units : option Units
}.

Definition Multiply_new (v : jsval) : Multiply :=
  {| mul_value := v; mul_units := None |}.

Definition Multiply_set_units (u : Units) (m : Multiply) : Multiply :=
  {| mul_value := mul_value m; mul_units := Some u |}.

(** ** Options *)

Record EnvelopeOptions : Type := mkEnvelopeOptions {
  eo_attack : jsval;
  eo_decay : jsval;
  eo_sustain : jsval;
  eo_release : jsval
}.

Record VoiceOptions : Type := mkVoiceOptions {
  vo_volume : jsval;
  vo_portamento : jsval;
  vo_oscillator_type : jsval;
  vo_filterEnvelope : option EnvelopeOptions;
  vo_envelope : option EnvelopeOptions
}.

(** The options object of [Tone.DuoSynth]; an absent key is [JUndefined]
    (or [None] for a nested object).  [o_portamento] is not among
    [Tone.DuoSynth.defaults] but is read by [Tone.Monophonic]. *)
Record Options : Type := mkOptions {
  o_vibratoAmount : jsval;
  o_vibratoRate : jsval;
  o_vibratoDelay : jsval;
  o_harmonicity : jsval;
  o_voice0 : option VoiceOptions;
  o_voice1 : option VoiceOptions;
  o_portamento : jsval
}.

(** A [Tone.MonoSynth] voice as far as [Tone.DuoSynth] touches its
    state: the options it was built from and what its [volume.value]
    reads. *)
Record MonoSynth : Type := mkMonoSynth {
  ms_options : option VoiceOptions;
  ms_volume_value : jsval
}.

(** [voice.volume.value = v] *)
Definition MonoSynth_set_volume (v : jsval) (m : MonoSynth) : MonoSynth :=
  {| ms_options := ms_options m; ms_volume_value := v |}.

(** Modelled from the spec: [Tone.prototype.defaultArg] is not in these
    files; every option is optional and an absent one takes its default,
    nested objects key by key. *)
Definition defaultArg (given fallback : jsval) : jsval :=
  match given with
  | JUndefined => fallback
  | _ => given
  end.

Definition defaultArg_envelope (given fallback : option EnvelopeOptions)
  : option EnvelopeOptions :=
  match given, fallback with
  | None, _ => fallback
  | Some g, None => Some g
  | Some g, Some f =>
      Some {| eo_attack := defaultArg (eo_attack g) (eo_attack f);
              eo_decay := defaultArg (eo_decay g) (eo_decay f);
              eo_sustain := defaultArg (eo_sustain g) (eo_sustain f);
              eo_release := defaultArg (eo_release g) (eo_release f) |}
  end.

Definition defaultArg_voice (given : option VoiceOptions) (fallback : VoiceOptions)
  : VoiceOptions :=
  match given with
  | None => fallback
  | Some g =>
      {| vo_volume := defaultArg (vo_volume g) (vo_volume fallback);
         vo_portamento := defaultArg (vo_portamento g) (vo_portamento fallback);
         vo_oscillator_type :=
           defaultArg (vo_oscillator_type g) (vo_oscillator_type fallback);
         vo_filterEnvelope :=
           defaultArg_envelope (vo_filterEnvelope g) (vo_filterEnvelope fallback);
         vo_envelope :=
           defaultArg_envelope (vo_envelope g) (vo_envelope fallback) |}
  end.

Definition defaultArg_options (given : option Options) (fallback : Options)
  : Options :=
  match given with
  | None => fallback
  | Some g =>
      {| o_vibratoAmount := defaultArg (o_vibratoAmount g) (o_vibratoAmount fallback);
         o_vibratoRate := defaultArg (o_vibratoRate g) (o_vibratoRate fallback);
         o_vibratoDelay := defaultArg (o_vibratoDelay g) (o_vibratoDelay fallback);
         o_harmonicity := defaultArg (o_harmonicity g) (o_harmonicity fallback);
         o_voice0 :=
           match o_voice0 fallback with
           | Some f => Some (defaultArg_voice (o_voice0 g) f)
           | None => o_voice0 g
           end;
         o_voice1 :=
           match o_voice1 fallback with
           | Some f => Some (defaultArg_voice (o_voice1 g) f)
           | None => o_voice1 g
           end;
         o_portamento := defaultArg (o_portamento g) (o_portamento fallback) |}
  end.

(** [Tone.Instrument.defaults], [Tone.Monophonic.defaults] and
    [Tone.DuoSynth.defaults]. *)
Definition Instrument_defaults_volume : jsval := JNumber 0%float.

Definition Monophonic_defaults_portamento : jsval := JNumber 0%float.

Definition DuoSynth_defaults_envelope : EnvelopeOptions :=
  {| eo_attack := JNumber 0.01%float;
     eo_decay := JNumber 0.0%float;
     eo_sustain := JNumber 1%float;
     eo_release := JNumber 0.5%float |}.

Definition DuoSynth_defaults_voice : VoiceOptions :=
  {| vo_volume := JNumber (-10)%float;
     vo_portamento := JNumber 0%float;
     vo_oscillator_type := JString "sine";
     vo_filterEnvelope := Some DuoSynth_defaults_envelope;
     vo_envelope := Some DuoSynth_defaults_envelope |}.

Definition DuoSynth_defaults : Options :=
  {| o_vibratoAmount := JNumber 0.5%float;
     o_vibratoRate := JNumber 5%float;
     o_vibratoDelay := JNumber 1%float;
     o_harmonicity := JNumber 1.5%float;
     o_voice0 := Some DuoSynth_defaults_voice;
     o_voice1 := Some DuoSynth_defaults_voice;
     o_portamento := JUndefined |}.

(** ** Sample collaborators

    The classes below are parameterised by the parts of Tone.js they call
    but do not define.  These instances let the model run on concrete
    inputs. *)

(** A [toSeconds] for a clock that reads [now]: a number is already in
    seconds, an absent time is now.  Tempo-relative strings are not
    interpreted and resolve to now as well. *)
Definition toSeconds_sample (now : float) (time : jsval) : float :=
  match time with
  | JNumber x => x
  | _ => now
  end.

(** A clock that reads 0. *)
Definition clock0 : jsval -> float := toSeconds_sample 0%float.

(** String-to-number conversion restricted to strings that are not
    numerals: the result is [NaN]. *)
Definition ToNumber_sample (s : string) : float := PrimFloat.nan.

(** A voice constructor that honours the [volume] option, with
    [Tone.Instrument.defaults.volume] when it is absent. *)
Definition MonoSynth_sample (options : option VoiceOptions) : MonoSynth :=
  {| ms_options := options;
     ms_volume_value :=
       match options with
       | Some o => defaultArg (vo_volume o) Instrument_defaults_volume
       | None => Instrument_defaults_volume
       end |}.

(** Sample options: a glide of half a second and nothing else; voice0
    asked to play at -3; two option objects that differ in
    [vibratoDelay] alone. *)
Definition options_glide : Options :=
  {| o_vibratoAmount := JUndefined; o_vibratoRate := JUndefined;
     o_vibratoDelay := JUndefined; o_harmonicity := JUndefined;
     o_voice0 := None; o_voice1 := None;
     o_portamento := JNumber 0.5%float |}.

Definition voice_options_louder : VoiceOptions :=
  {| vo_volume := JNumber (-3)%float;
     vo_portamento := JUndefined;
     vo_oscillator_type := JUndefined;
     vo_filterEnvelope := None;
     vo_envelope := None |}.

Definition options_louder_voice0 : Options :=
  {| o_vibratoAmount := JUndefined; o_vibratoRate := JUndefined;
     o_vibratoDelay := JUndefined; o_harmonicity := JUndefined;
     o_voice0 := Some voice_options_louder; o_voice1 := None;
     o_portamento := JUndefined |}.

Definition options_delay (delay : float) : Options :=
  {| o_vibratoAmount := JUndefined; o_vibratoRate := JUndefined;
     o_vibratoDelay := JNumber delay; o_harmonicity := JUndefined;
     o_voice0 := None; o_voice1 := None; o_portamento := JUndefined |}.

(** A glide time written as a tempo-relative string. *)
Definition options_string_glide : Options :=
  {| o_vibratoAmount := JUndefined; o_vibratoRate := JUndefined;
     o_vibratoDelay := JUndefined; o_harmonicity := JUndefined;
     o_voice0 := None; o_voice1 := None;
     o_portamento := JString "8n" |}.

(** ** The instance *)

(** The object [this].  A field is [None] while it is [undefined] or
    [null]; reading a property through it raises a [TypeError] either
    way.  [readonly] lists the properties frozen by [_readOnly]. *)
Record Instance : Type := mkInstance {
  output : option obj;
  volume : option ParamSignal;
  portamento : jsval;
  voice0 : option MonoSynth;
  voice1 : option MonoSynth;
  _vibrato : option LFO;
  vibratoRate : option obj;
  _vibratoGain : option obj;
  vibratoAmount : option ParamSignal;
  _vibratoDelay : jsval;
  frequency : option Signal;
  harmonicity : option Multiply;
  readonly : list string
}.

(** A freshly allocated object, before any constructor body has run. *)
Definition Instance_empty : Instance :=
  {| output := None; volume := None; portamento := JUndefined;
     voice0 := None; voice1 := None; _vibrato := None; vibratoRate := None;
     _vibratoGain := None; vibratoAmount := None; _vibratoDelay := JUndefined;
     frequency := None; harmonicity := None; readonly := [] |}.

Definition set_output v (i : Instance) : Instance :=
  mkInstance v (volume i) (portamento i) (voice0 i) (voice1 i) (_vibrato i)
    (vibratoRate i) (_vibratoGain i) (vibratoAmount i) (_vibratoDelay i)
    (frequency i) (harmonicity i) (readonly i).
Definition set_volume v (i : Instance) : Instance :=
  mkInstance (output i) v (portamento i) (voice0 i) (voice1 i) (_vibrato i)
    (vibratoRate i) (_vibratoGain i) (vibratoAmount i) (_vibratoDelay i)
    (frequency i) (harmonicity i) (readonly i).
Definition set_portamento v (i : Instance) : Instance :=
  mkInstance (output i) (volume i) v (voice0 i) (voice1 i) (_vibrato i)
    (vibratoRate i) (_vibratoGain i) (vibratoAmount i) (_vibratoDelay i)
    (frequency i) (harmonicity i) (readonly i).
Definition set_voice0 v (i : Instance) : Instance :=
  mkInstance (output i) (volume i) (portamento i) v (voice1 i) (_vibrato i)
    (vibratoRate i) (_vibratoGain i) (vibratoAmount i) (_vibratoDelay i)
    (frequency i) (harmonicity i) (readonly i).
Definition set_voice1 v (i : Instance) : Instance :=
  mkInstance (output i) (volume i) (portamento i) (voice0 i) v (_vibrato i)
    (vibratoRate i) (_vibratoGain i) (vibratoAmount i) (_vibratoDelay i)
    (frequency i) (harmonicity i) (readonly i).
Definition set__vibrato v (i : Instance) : Instance :=
  mkInstance (output i) (volume i) (portamento i) (voice0 i) (voice1 i) v
    (vibratoRate i) (_vibratoGain i) (vibratoAmount i) (_vibratoDelay i)
    (frequency i) (harmonicity i) (readonly i).
Definition set_vibratoRate v (i : Instance) : Instance :=
  mkInstance (output i) (volume i) (portamento i) (voice0 i) (voice1 i)
    (_vibrato i) v (_vibratoGain i) (vibratoAmount i) (_vibratoDelay i)
    (frequency i) (harmonicity i) (readonly i).
Definition set__vibratoGain v (i : Instance) : Instance :=
  mkInstance (output i) (volume i) (portamento i) (voice0 i) (voice1 i)
    (_vibrato i) (vibratoRate i) v (vibratoAmount i) (_vibratoDelay i)
    (frequency i) (harmonicity i) (readonly i).
Definition set_vibratoAmount v (i : Instance) : Instance :=
  mkInstance (output i) (volume i) (portamento i) (voice0 i) (voice1 i)
    (_vibrato i) (vibratoRate i) (_vibratoGain i) v (_vibratoDelay i)
    (frequency i) (harmonicity i) (readonly i).
Definition set__vibratoDelay v (i : Instance) : Instance :=
  mkInstance (output i) (volume i) (portamento i) (voice0 i) (voice1 i)
    (_vibrato i) (vibratoRate i) (_vibratoGain i) (vibratoAmount i) v
    (frequency i) (harmonicity i) (readonly i).
Definition set_frequency v (i : Instance) : Instance :=
  mkInstance (output i) (volume i) (portamento i) (voice0 i) (voice1 i)
    (_vibrato i) (vibratoRate i) (_vibratoGain i) (vibratoAmount i)
    (_vibratoDelay i) v (harmonicity i) (readonly i).
Definition set_harmonicity v (i : Instance) : Instance :=
  mkInstance (output i) (volume i) (portamento i) (voice0 i) (voice1 i)
    (_vibrato i) (vibratoRate i) (_vibratoGain i) (vibratoAmount i)
    (_vibratoDelay i) (frequency i) v (readonly i).
Definition set_readonly v (i : Instance) : Instance :=
  mkInstance (output i) (volume i) (portamento i) (voice0 i) (voice1 i)
    (_vibrato i) (vibratoRate i) (_vibratoGain i) (vibratoAmount i)
    (_vibratoDelay i) (frequency i) (harmonicity i) v.

(** ** Effects *)

(** The instance together with the calls made so far on collaborators. *)
Record World : Type := mkWorld {
  this : Instance;
  calls : list call
}.

Inductive error : Type :=
| TypeError (reason : string).

(** The outcome of running a method body.  An exception keeps the state
    reached when it was thrown: nothing is rolled back. *)
Inductive Result (A : Type) : Type :=
| Ok (a : A) (w : World)
| Throw (e : error) (w : World).
Arguments Ok {A} a w.
Arguments Throw {A} e w.

Definition M (A : Type) : Type := World -> Result A.

Definition ret {A} (a : A) : M A := fun w => Ok a w.

Definition bind {A B} (m : M A) (k : A -> M B) : M B :=
  fun w =>
    match m w with
    | Ok a w' => k a w'
    | Throw e w' => Throw e w'
    end.

Definition throw {A} (e : error) : M A := fun w => Throw e w.

Declare Scope js_scope.
Delimit Scope js_scope with js.
Notation "x <- m ;; k" := (bind m (fun x => k))
  (at level 61, m at next level, right associativity) : js_scope.
Notation "m ;; k" := (bind m (fun _ => k))
  (at level 61, right associativity) : js_scope.
Open Scope js_scope.

(** The world in which a run ended, normally or not. *)
Definition final {A} (r : Result A) : World :=
  match r with
  | Ok _ w => w
  | Throw _ w => w
  end.

(** [this.<field>.<something>]: reading through a field. *)
Definition deref {T} (name : string) (field : Instance -> option T) : M T :=
  fun w =>
    match field (this w) with
    | Some x => Ok x w
    | None => Throw (TypeError ("Cannot read property of null: " ++ name)) w
    end.

(** [this.<field>]: reading a property of the instance itself. *)
Definition read {T} (field : Instance -> T) : M T :=
  fun w => Ok (field (this w)) w.

(** [this.<name> = v] under ["use strict"]: writing a property frozen by
    [_readOnly] raises a [TypeError]. *)
Definition assign (name : string) (update : Instance -> Instance) : M unit :=
  fun w =>
    if existsb (String.eqb name) (readonly (this w))
    then Throw (TypeError ("Cannot assign to read only property: " ++ name)) w
    else Ok tt {| this := update (this w); calls := calls w |}.

(** A change inside an object held by the instance: no re-binding, so
    [readonly] is not consulted. *)
Definition mutate (update : Instance -> Instance) : M unit :=
  fun w => Ok tt {| this := update (this w); calls := calls w |}.

(** A call on an opaque collaborator. *)
Definition emit (c : call) : M unit :=
  fun w => Ok tt {| this := this w; calls := calls w ++ [c] |}.

(** Modelled from the spec: [Tone.prototype._readOnly] and [_writable]
    are not in these files; the first makes the named bindings
    non-reassignable, the second restores write access to them. *)
Definition _readOnly (names : list string) : M unit :=
  mutate (fun i => set_readonly (readonly i ++ names) i).

Definition _writable (names : list string) : M unit :=
  mutate (fun i =>
    set_readonly
      (filter (fun n => negb (existsb (String.eqb n) names)) (readonly i)) i).

(** ** The classes *)

Section Instruments.

(** [Tone.prototype.toSeconds] (Tone/core/Tone): resolves a time
    descriptor against the rendering clock.  It is outside these files
    and stays a parameter. *)
Variable toSeconds : jsval -> float.

(** JavaScript's conversion of a string to a number, used when a string
    meets [>]. *)
Variable ToNumber : string -> float.

(** [new Tone.MonoSynth(options)] (Tone/instrument/MonoSynth): the voice
    constructor, outside these files. *)
Variable MonoSynth_new : option VoiceOptions -> MonoSynth.

(** [v > 0] in JavaScript: [undefined] converts to [NaN], which compares
    false. *)
Definition js_gt_zero (v : jsval) : bool :=
  match v with
  | JUndefined => false
  | JNumber x => PrimFloat.ltb 0%float x
  | JString s => PrimFloat.ltb 0%float (ToNumber s)
  end.

(** [node.gain] of a gain node. *)
Definition gain_param (node : obj) : obj :=
  match node with
  | OOutput => OOutputGain
  | OVibratoGain => OVibratoGainGain
  | n => n
  end.

Definition voice_field (i : voice_id) : Instance -> option MonoSynth :=
  match i with
  | V0 => voice0
  | V1 => voice1
  end.

Definition voice_name (i : voice_id) : string :=
  match i with
  | V0 => "voice0"
  | V1 => "voice1"
  end.

Definition set_voice (i : voice_id) : option MonoSynth -> Instance -> Instance :=
  match i with
  | V0 => set_voice0
  | V1 => set_voice1
  end.

(** [a.connect(b)], and Tone's [chain] and [fan].
    Modelled from the spec: [connect], [chain] and [fan] are not in these
    files; a chain drives each stage from the one before it, a fan drives
    every destination from the same source. *)
Definition connect (src dst : obj) : M unit := emit (ConnectCall src dst).

Definition chain (src a b : obj) : M unit :=
  connect src a ;; connect a b.

Definition fan (src a b : obj) : M unit :=
  connect src a ;; connect src b.

(** *** Tone.Instrument *)

(** The two sets of methods reached through [this], which a subclass may
    override. *)
Record InstrumentMethods : Type := mkInstrumentMethods {
  triggerAttack : jsval -> jsval -> jsval -> M retval;
  triggerRelease : jsval -> M retval
}.

Record MonophonicMethods : Type := mkMonophonicMethods {
  _triggerEnvelopeAttack : jsval -> jsval -> M retval;
  _triggerEnvelopeRelease : jsval -> M retval;
  setNote : jsval -> jsval -> M retval
}.

Definition Instrument_constructor : M unit :=
  assign "output" (set_output (Some OOutput)) ;;
  out <- deref "output" output ;;
  assign "volume" (set_volume (Some (ParamSignal_new (gain_param out) Decibels))) ;;
  _readOnly ["volume"].

Definition Instrument_triggerAttack (note time velocity : jsval) : M retval :=
  ret RetUndefined.

Definition Instrument_triggerRelease (time : jsval) : M retval :=
  ret RetUndefined.

Definition Instrument_triggerAttackRelease (self : InstrumentMethods)
    (note duration time velocity : jsval) : M retval :=
  let time := toSeconds time in
  let duration := toSeconds duration in
  triggerAttack self note (JNumber time) velocity ;;
  triggerRelease self (JNumber (time + duration)%float) ;;
  ret RetThis.

(** [Tone.prototype.dispose] is outside these files; the call is
    recorded. *)
Definition Tone_dispose : M unit :=
  emit (MethodCall OThis "Tone.prototype.dispose" []).

Definition Instrument_dispose : M retval :=
  Tone_dispose ;;
  _writable ["volume"] ;;
  _ <- deref "volume" volume ;;
  emit (MethodCall OVolume "dispose" []) ;;
  assign "volume" (set_volume None) ;;
  ret RetThis.

(** *** Tone.Monophonic *)

Definition Monophonic_constructor (options : Options) : M unit :=
  Instrument_constructor ;;
  let portamento :=
    defaultArg (o_portamento options) Monophonic_defaults_portamento in
  assign "portamento" (set_portamento portamento).

Definition Monophonic_triggerAttack (self : MonophonicMethods)
    (note time velocity : jsval) : M retval :=
  let time := toSeconds time in
  _triggerEnvelopeAttack self (JNumber time) velocity ;;
  setNote self note (JNumber time) ;;
  ret RetThis.

Definition Monophonic_triggerRelease (self : MonophonicMethods)
    (time : jsval) : M retval :=
  _triggerEnvelopeRelease self time ;;
  ret RetThis.

Definition Monophonic__triggerEnvelopeAttack (time velocity : jsval) : M retval :=
  ret RetUndefined.

Definition Monophonic__triggerEnvelopeRelease (time : jsval) : M retval :=
  ret RetUndefined.

(** [this.frequency.<instruction>(...)]: the instruction joins the
    signal's automation. *)
Definition frequency_schedule (a : automation) : M unit :=
  f <- deref "frequency" frequency ;;
  mutate (set_frequency
            (Some {| sig_value := sig_value f;
                     sig_units := sig_units f;
                     sig_automation := sig_automation f ++ [a] |})).

Definition Monophonic_setNote (note time : jsval) : M retval :=
  let time := toSeconds time in
  p <- read portamento ;;
  if js_gt_zero p then
    f <- deref "frequency" frequency ;;
    let currentNote := sig_value f in
    frequency_schedule (SetValueAtTime currentNote time) ;;
    p' <- read portamento ;;
    let portTime := toSeconds p' in
    frequency_schedule
      (ExponentialRampToValueAtTime note (time + portTime)%float) ;;
    ret RetThis
  else
    frequency_schedule (SetValueAtTime note time) ;;
    ret RetThis.

(** [Tone.Monophonic] defines no [dispose]; the prototype chain reaches
    [Tone.Instrument.prototype.dispose]. *)
Definition Monophonic_dispose : M retval := Instrument_dispose.

(** *** Tone.DuoSynth *)

Definition DuoSynth_constructor (options : option Options) : M unit :=
  let options := defaultArg_options options DuoSynth_defaults in
  Monophonic_constructor options ;;
  assign "voice0" (set_voice0 (Some (MonoSynth_new (o_voice0 options)))) ;;
  v0 <- deref "voice0" voice0 ;;
  mutate (set_voice0 (Some (MonoSynth_set_volume (JNumber (-10)%float) v0))) ;;
  assign "voice1" (set_voice1 (Some (MonoSynth_new (o_voice1 options)))) ;;
  v1 <- deref "voice1" voice1 ;;
  mutate (set_voice1 (Some (MonoSynth_set_volume (JNumber (-10)%float) v1))) ;;
  assign "_vibrato"
    (set__vibrato (Some (LFO_new (o_vibratoRate options) (-50)%float 50%float))) ;;
  l <- deref "_vibrato" _vibrato ;;
  mutate (set__vibrato (Some (LFO_start l))) ;;
  _ <- deref "_vibrato" _vibrato ;;
  assign "vibratoRate" (set_vibratoRate (Some OVibratoFrequency)) ;;
  assign "_vibratoGain" (set__vibratoGain (Some OVibratoGain)) ;;
  g <- deref "_vibratoGain" _vibratoGain ;;
  assign "vibratoAmount"
    (set_vibratoAmount (Some (ParamSignal_new (gain_param g) Gain))) ;;
  a <- deref "vibratoAmount" vibratoAmount ;;
  mutate (set_vibratoAmount
            (Some (ParamSignal_set_value (o_vibratoAmount options) a))) ;;
  assign "_vibratoDelay"
    (set__vibratoDelay (JNumber (toSeconds (o_vibratoDelay options)))) ;;
  assign "frequency" (set_frequency (Some (Signal_new 440%float Frequency))) ;;
  assign "harmonicity"
    (set_harmonicity (Some (Multiply_new (o_harmonicity options)))) ;;
  h <- deref "harmonicity" harmonicity ;;
  mutate (set_harmonicity (Some (Multiply_set_units Positive h))) ;;
  (* control the two voices frequency *)
  _ <- deref "frequency" frequency ;;
  _ <- deref "voice0" voice0 ;;
  connect OFrequency (OVoiceFrequency V0) ;;
  _ <- deref "frequency" frequency ;;
  _ <- deref "harmonicity" harmonicity ;;
  _ <- deref "voice1" voice1 ;;
  chain OFrequency OHarmonicity (OVoiceFrequency V1) ;;
  _ <- deref "_vibrato" _vibrato ;;
  connect OVibrato OVibratoGain ;;
  _ <- deref "_vibratoGain" _vibratoGain ;;
  _ <- deref "voice0" voice0 ;;
  _ <- deref "voice1" voice1 ;;
  fan OVibratoGain (OVoiceDetune V0) (OVoiceDetune V1) ;;
  _ <- deref "voice0" voice0 ;;
  connect (OVoice V0) OOutput ;;
  _ <- deref "voice1" voice1 ;;
  connect (OVoice V1) OOutput ;;
  _readOnly ["voice0"; "voice1"; "frequency"; "vibratoAmount"; "vibratoRate"].

(** [this.voice<i>.<part>.<method>(args)] *)
Definition voice_call (i : voice_id) (target : obj) (method : string)
    (args : list jsval) : M unit :=
  _ <- deref (voice_name i) (voice_field i) ;;
  emit (MethodCall target method args).

Definition DuoSynth__triggerEnvelopeAttack (time velocity : jsval) : M retval :=
  let time := toSeconds time in
  voice_call V0 (OVoiceEnvelope V0) "triggerAttack" [JNumber time; velocity] ;;
  voice_call V1 (OVoiceEnvelope V1) "triggerAttack" [JNumber time; velocity] ;;
  voice_call V0 (OVoiceFilterEnvelope V0) "triggerAttack" [JNumber time] ;;
  voice_call V1 (OVoiceFilterEnvelope V1) "triggerAttack" [JNumber time] ;;
  ret RetThis.

Definition DuoSynth__triggerEnvelopeRelease (time : jsval) : M retval :=
  voice_call V0 (OVoice V0) "triggerRelease" [time] ;;
  voice_call V1 (OVoice V1) "triggerRelease" [time] ;;
  ret RetThis.

Definition DuoSynth_dispose : M retval :=
  Monophonic_dispose ;;
  _writable ["voice0"; "voice1"; "frequency"; "vibratoAmount"; "vibratoRate"] ;;
  voice_call V0 (OVoice V0) "dispose" [] ;;
  assign "voice0" (set_voice0 None) ;;
  voice_call V1 (OVoice V1) "dispose" [] ;;
  assign "voice1" (set_voice1 None) ;;
  _ <- deref "frequency" frequency ;;
  emit (MethodCall OFrequency "dispose" []) ;;
  assign "frequency" (set_frequency None) ;;
  _ <- deref "_vibrato" _vibrato ;;
  emit (MethodCall OVibrato "dispose" []) ;;
  assign "_vibrato" (set__vibrato None) ;;
  _ <- deref "_vibratoGain" _vibratoGain ;;
  emit (MethodCall OVibratoGain "disconnect" []) ;;
  assign "_vibratoGain" (set__vibratoGain None) ;;
  _ <- deref "harmonicity" harmonicity ;;
  emit (MethodCall OHarmonicity "dispose" []) ;;
  assign "harmonicity" (set_harmonicity None) ;;
  _ <- deref "vibratoAmount" vibratoAmount ;;
  emit (MethodCall OVibratoAmount "dispose" []) ;;
  assign "vibratoAmount" (set_vibratoAmount None) ;;
  assign "vibratoRate" (set_vibratoRate None) ;;
  ret RetThis.

(** The methods a [Tone.DuoSynth] instance answers to: its own hooks,
    and what it inherits. *)
Definition DuoSynth_monophonic : MonophonicMethods :=
  {| _triggerEnvelopeAttack := DuoSynth__triggerEnvelopeAttack;
     _triggerEnvelopeRelease := DuoSynth__triggerEnvelopeRelease;
     setNote := Monophonic_setNote |}.

Definition DuoSynth_instrument : InstrumentMethods :=
  {| triggerAttack := Monophonic_triggerAttack DuoSynth_monophonic;
     triggerRelease := Monophonic_triggerRelease DuoSynth_monophonic |}.

Definition DuoSynth_triggerAttack : jsval -> jsval -> jsval -> M retval :=
  triggerAttack DuoSynth_instrument.

Definition DuoSynth_triggerRelease : jsval -> M retval :=
  triggerRelease DuoSynth_instrument.

Definition DuoSynth_triggerAttackRelease
  : jsval -> jsval -> jsval -> jsval -> M retval :=
  Instrument_triggerAttackRelease DuoSynth_instrument.

(** [new Tone.DuoSynth(options)]: the constructor run on a fresh object. *)
Definition DuoSynth_new (options : option Options) : Result unit :=
  DuoSynth_constructor options {| this := Instance_empty; calls := [] |}.

(** The public operations of an instance. *)
Inductive operation : Type :=
| OpTriggerAttack (note time velocity : jsval)
| OpTriggerRelease (time : jsval)
| OpTriggerAttackRelease (note duration time velocity : jsval)
| OpSetNote (note time : jsval)
| OpDispose.

Definition run (op : operation) : M retval :=
  match op with
  | OpTriggerAttack note time velocity => DuoSynth_triggerAttack note time velocity
  | OpTriggerRelease time => DuoSynth_triggerRelease time
  | OpTriggerAttackRelease note duration time velocity =>
      DuoSynth_triggerAttackRelease note duration time velocity
  | OpSetNote note time => Monophonic_setNote note time
  | OpDispose => DuoSynth_dispose
  end.


(** Operations one after the other, each on the state the one before
    left (a caller may catch an exception and go on).  The outcomes come
    back with the last state. *)
Definition outcome {A} (r : Result A) : A + error :=
  match r with
  | Ok a _ => inl a
  | Throw e _ => inr e
  end.

Fixpoint run_all (ops : list operation) (w : World)
  : list (retval + error) * World :=
  match ops with
  | [] => ([], w)
  | op :: rest =>
      let r := run op w in
      let (os, w') := run_all rest (final r) in
      (outcome r :: os, w')
  end.

(** ** The signal graph *)

(** Modelled from the spec: the rendering collaborator is not in these
    files.  Connections are "drives" edges; [dispose] and [disconnect]
    on a stage remove the edges that leave it. *)
Definition severs (method : string) : bool :=
  String.eqb method "dispose" || String.eqb method "disconnect".

Definition graph_step (g : list (obj * obj)) (c : call) : list (obj * obj) :=
  match c with
  | ConnectCall a b => g ++ [(a, b)]
  | MethodCall n m _ =>
      if severs m then filter (fun e => negb (obj_beq (fst e) n)) g else g
  end.

Definition edges (cs : list call) : list (obj * obj) :=
  fold_left graph_step cs [].

Definition drivers (g : list (obj * obj)) (n : obj) : list obj :=
  map fst (filter (fun e => obj_beq (snd e) n) g).

(** The instants of the rendering clock and what the two generators
    (the frequency signal and the vibrato oscillator) put out at an
    instant. *)
Variable instant : Type.
Variable generated : instant -> obj -> float.

(** The number a stage holds for the value it was given. *)
Definition js_number (v : jsval) : float :=
  match v with
  | JUndefined => PrimFloat.nan
  | JNumber x => x
  | JString s => ToNumber s
  end.

(** The factor of the instance's harmonicity stage: the value
    [new Tone.Multiply(...)] was built with.  A released stage passes
    nothing. *)
Definition harmonicity_ratio (w : World) : float :=
  match harmonicity (this w) with
  | Some m => js_number (mul_value m)
  | None => 0%float
  end.

(** The gain of the instance's vibrato gain node: the value written to
    [vibratoAmount], or 1, the gain of a new gain node, while nothing has
    been written. *)
Definition vibrato_amount (w : World) : float :=
  match vibratoAmount (this w) with
  | Some s =>
      match ps_written s with
      | Some v => js_number v
      | None => 1%float
      end
  | None => 0%float
  end.

(** What reaches an input: nothing when nothing drives it, the driver's
    own output when there is one driver, the sum when there are more. *)
Definition mix (inputs : list float) : float :=
  match inputs with
  | [] => 0%float
  | x :: rest => fold_left PrimFloat.add rest x
  end.

(** Modelled from the spec: what a stage of the instance [w] puts out at
    instant [t].  A generator puts out its own value, a scaling stage its
    input times the factor the instance holds for it, any other stage
    what reaches its input. *)
Fixpoint rendered (w : World) (depth : nat) (g : list (obj * obj))
    (t : instant) (n : obj) : float :=
  match depth with
  | O => 0%float
  | S d =>
      let input := mix (map (rendered w d g t) (drivers g n)) in
      match n with
      | OFrequency => generated t OFrequency
      | OVibrato => generated t OVibrato
      | OHarmonicity => (input * harmonicity_ratio w)%float
      | OVibratoGain => (input * vibrato_amount w)%float
      | _ => input
      end
  end.

(** What drives the pitch input of voice [i] at instant [t]. *)
Definition pitch_input (w : World) (i : voice_id) (t : instant) : float :=
  let g := edges (calls w) in
  mix (map (rendered w (List.length g) g t) (drivers g (OVoiceFrequency i))).

(** ** The automation timeline *)

Definition automation_time (a : automation) : float :=
  match a with
  | SetValueAtTime _ t => t
  | LinearRampToValueAtTime _ t => t
  | ExponentialRampToValueAtTime _ t => t
  | CancelScheduledValues t => t
  end.

(** Modelled from the spec: the timeline of a scheduled parameter is in
    the rendering collaborator.  Points are kept in call order; a
    cancellation at [t] drops the points scheduled at or after [t]. *)
Definition timeline_step (points : list automation) (a : automation)
  : list automation :=
  match a with
  | CancelScheduledValues t =>
      filter (fun p => PrimFloat.ltb (automation_time p) t) points
  | _ => points ++ [a]
  end.

Definition pending (log : list automation) : list automation :=
  fold_left timeline_step log [].

(** The automation the frequency signal has received. *)
Definition frequency_automation (w : World) : list automation :=
  match frequency (this w) with
  | Some f => sig_automation f
  | None => []
  end.

(** ** Constructed instances *)

(** The shape of an instance between its construction and [dispose]:
    every owned reference is bound and the exposed ones are frozen. *)
Record live (w : World) : Prop := mkLive {
  live_volume : volume (this w) <> None;
  live_voice0 : voice0 (this w) <> None;
  live_voice1 : voice1 (this w) <> None;
  live__vibrato : _vibrato (this w) <> None;
  live__vibratoGain : _vibratoGain (this w) <> None;
  live_vibratoAmount : vibratoAmount (this w) <> None;
  live_frequency : frequency (this w) <> None;
  live_harmonicity : harmonicity (this w) <> None;
  live_readonly :
    readonly (this w) =
    ["volume"; "voice0"; "voice1"; "frequency"; "vibratoAmount"; "vibratoRate"]
}.

(** ** What [vibratoDelay] cannot reach *)

(** The state with the private [_vibratoDelay] blanked. *)
Definition forget_vibratoDelay (w : World) : World :=
  {| this := set__vibratoDelay JUndefined (this w); calls := calls w |}.

Definition forget_in_result {A} (r : Result A) : Result A :=
  match r with
  | Ok a w => Ok a (forget_vibratoDelay w)
  | Throw e w => Throw e (forget_vibratoDelay w)
  end.

(** Two option objects that agree on every key but [vibratoDelay]. *)
Definition same_but_vibratoDelay (a b : Options) : Prop :=
  o_vibratoAmount a = o_vibratoAmount b /\
  o_vibratoRate a = o_vibratoRate b /\
  o_harmonicity a = o_harmonicity b /\
  o_voice0 a = o_voice0 b /\
  o_voice1 a = o_voice1 b /\
  o_portamento a = o_portamento b.

(** The state after the frequency signal [f] has received the
    instructions [l]; nothing else moves. *)
Definition schedule_on (f : Signal) (l : list automation) : Signal :=
  {| sig_value := sig_value f;
     sig_units := sig_units f;
     sig_automation := sig_automation f ++ l |}.

Definition scheduled (w : World) (f : Signal) (l : list automation) : World :=
  {| this := set_frequency (Some (schedule_on f l)) (this w);
     calls := calls w |}.

(** The state after the collaborators have received the calls [cs]. *)
Definition called (w : World) (cs : list call) : World :=
  {| this := this w; calls := calls w ++ cs |}.

(** ** Closed forms used in the statements *)

(** The instructions [setNote] schedules, by the portamento [p] in force:
    the hold-then-glide pair or the single set-point. *)
Definition setNote_instructions (p : jsval) (current note : jsval) (t : float)
  : list automation :=
  if js_gt_zero p
  then [SetValueAtTime current t;
        ExponentialRampToValueAtTime note (t + toSeconds p)%float]
  else [SetValueAtTime note t].

(** The calls of one envelope attack, in the order they are made. *)
Definition attack_calls (t velocity : jsval) : list call :=
  [MethodCall (OVoiceEnvelope V0) "triggerAttack" [t; velocity];
   MethodCall (OVoiceEnvelope V1) "triggerAttack" [t; velocity];
   MethodCall (OVoiceFilterEnvelope V0) "triggerAttack" [t];
   MethodCall (OVoiceFilterEnvelope V1) "triggerAttack" [t]].

(** The calls of one envelope release. *)
Definition release_calls (time : jsval) : list call :=
  [MethodCall (OVoice V0) "triggerRelease" [time];
   MethodCall (OVoice V1) "triggerRelease" [time]].

(** The calls [dispose] makes on a live instance, in order. *)
Definition dispose_calls : list call :=
  [MethodCall OThis "Tone.prototype.dispose" [];
   MethodCall OVolume "dispose" [];
   MethodCall (OVoice V0) "dispose" [];
   MethodCall (OVoice V1) "dispose" [];
   MethodCall OFrequency "dispose" [];
   MethodCall OVibrato "dispose" [];
   MethodCall OVibratoGain "disconnect" [];
   MethodCall OHarmonicity "dispose" [];
   MethodCall OVibratoAmount "dispose" []].

(** The instance [dispose] leaves: [output], [portamento] and
    [_vibratoDelay] are not touched here, every other field is null and
    nothing is frozen any more. *)
Definition disposed (w : World) : World :=
  {| this :=
       {| output := output (this w);
          volume := None;
          portamento := portamento (this w);
          voice0 := None; voice1 := None; _vibrato := None;
          vibratoRate := None; _vibratoGain := None; vibratoAmount := None;
          _vibratoDelay := _vibratoDelay (this w);
          frequency := None; harmonicity := None;
          readonly := [] |};
     calls := calls w ++ dispose_calls |}.

(** The outcome of running [first] and then [second] on the state it
    left, the whole returning [this]: an exception of either is the
    outcome, with the state at that point. *)
Definition in_sequence (first second : M retval) (w : World) : Result retval :=
  match first w with
  | Throw e w1 => Throw e w1
  | Ok _ w1 =>
      match second w1 with
      | Throw e w2 => Throw e w2
      | Ok _ w2 => Ok RetThis w2
      end
  end.

(** Anything but [dispose]. *)
Definition not_dispose (op : operation) : Prop := op <> OpDispose.

(** The reading of a glide that supersedes earlier automation: it
    cancels every point that was pending on the frequency signal with a
    time after the hold point. *)
Definition glide_cancels_later_points : Prop :=
  forall (note time : jsval) (w w' : World),
    js_gt_zero (portamento (this w)) = true ->
    Monophonic_setNote note time w = Ok RetThis w' ->
    forall a : automation,
      In a (pending (frequency_automation w)) ->
      PrimFloat.ltb (toSeconds time) (automation_time a) = true ->
      ~ In a (pending (frequency_automation w')).

(** A computation is blind to [_vibratoDelay] when blanking the field
    before it runs or after it has run comes to the same. *)
Definition blind {A} (m : M A) : Prop :=
  forall w, m (forget_vibratoDelay w) = forget_in_result (m w).

(** ** Further notions *)

(** The methods of a [Tone.Monophonic] that no subclass has
    overridden. *)
Definition Monophonic_base : MonophonicMethods :=
  {| _triggerEnvelopeAttack := Monophonic__triggerEnvelopeAttack;
     _triggerEnvelopeRelease := Monophonic__triggerEnvelopeRelease;
     setNote := Monophonic_setNote |}.

(** [new Tone.Monophonic(options)]: the constructor run on a fresh
    object. *)
Definition Monophonic_new (options : Options) : Result unit :=
  Monophonic_constructor options {| this := Instance_empty; calls := [] |}.

(** The connections the [Tone.DuoSynth] constructor makes, in order. *)
Definition constructor_edges : list (obj * obj) :=
  [(OFrequency, OVoiceFrequency V0);
   (OFrequency, OHarmonicity);
   (OHarmonicity, OVoiceFrequency V1);
   (OVibrato, OVibratoGain);
   (OVibratoGain, OVoiceDetune V0);
   (OVibratoGain, OVoiceDetune V1);
   (OVoice V0, OOutput);
   (OVoice V1, OOutput)].

(** What drives the detune input of voice [i] at instant [t]. *)
Definition detune_input (w : World) (i : voice_id) (t : instant) : float :=
  let g := edges (calls w) in
  mix (map (rendered w (List.length g) g t) (drivers g (OVoiceDetune i))).

(** The instructions that add a point to a timeline without removing
    any: set-points and exponential ramps. *)
Definition schedules_a_point (a : automation) : Prop :=
  match a with
  | SetValueAtTime _ _ => True
  | ExponentialRampToValueAtTime _ _ => True
  | LinearRampToValueAtTime _ _ => False
  | CancelScheduledValues _ => False
  end.

(** The calls that trigger a voice or one of its envelopes. *)
Definition triggers_a_voice (c : call) : Prop :=
  match c with
  | MethodCall (OVoice _) method _ => method = "triggerRelease"
  | MethodCall (OVoiceEnvelope _) method _ => method = "triggerAttack"
  | MethodCall (OVoiceFilterEnvelope _) method _ => method = "triggerAttack"
  | _ => False
  end.

(** An instance whose voices, frequency signal and volume are gone. *)
Definition dead (w : World) : Prop :=
  voice0 (this w) = None /\ voice1 (this w) = None /\
  frequency (this w) = None /\ volume (this w) = None.

Definition is_error (o : retval + error) : Prop :=
  match o with
  | inl _ => False
  | inr _ => True
  end.

(** The properties the constructors freeze. *)
Definition frozen_names : list string :=
  ["volume"; "voice0"; "voice1"; "frequency"; "vibratoAmount"; "vibratoRate"].

(** * Properties *)

(** ** The monad *)

Lemma bind_Ok {A B} (m : M A) (k : A -> M B) w a w' :
  m w = Ok a w' -> bind m k w = k a w'.
Proof. unfold bind. intros ->. reflexivity. Qed.

Lemma bind_Throw {A B} (m : M A) (k : A -> M B) w e w' :
  m w = Throw e w' -> bind m k w = Throw e w'.
Proof. unfold bind. intros ->. reflexivity. Qed.

Lemma deref_Some {T} name (field : Instance -> option T) w x :
  field (this w) = Some x -> deref name field w = Ok x w.
Proof. unfold deref. intros ->. reflexivity. Qed.

Lemma deref_None {T} name (field : Instance -> option T) w :
  field (this w) = None -> exists e, deref name field w = Throw e w.
Proof. unfold deref. intros ->. eexists. reflexivity. Qed.

Lemma present_Some {T} (o : option T) : o <> None -> exists x, o = Some x.
Proof. destruct o as [x|]; [exists x; reflexivity | intros H; elim H; reflexivity]. Qed.

(** ** Construction *)

(** The constructor completes on every options object, and this is the
    instance it leaves. *)
Lemma DuoSynth_new_eq (options : option Options) :
  DuoSynth_new options =
  let o := defaultArg_options options DuoSynth_defaults in
  Ok tt
    {| this :=
         {| output := Some OOutput;
            volume := Some (ParamSignal_new OOutputGain Decibels);
            portamento := defaultArg (o_portamento o) Monophonic_defaults_portamento;
            voice0 :=
              Some (MonoSynth_set_volume (JNumber (-10)%float)
                      (MonoSynth_new (o_voice0 o)));
            voice1 :=
              Some (MonoSynth_set_volume (JNumber (-10)%float)
                      (MonoSynth_new (o_voice1 o)));
            _vibrato :=
              Some (LFO_start (LFO_new (o_vibratoRate o) (-50)%float 50%float));
            vibratoRate := Some OVibratoFrequency;
            _vibratoGain := Some OVibratoGain;
            vibratoAmount :=
              Some (ParamSignal_set_value (o_vibratoAmount o)
                      (ParamSignal_new OVibratoGainGain Gain));
            _vibratoDelay := JNumber (toSeconds (o_vibratoDelay o));
            frequency := Some (Signal_new 440%float Frequency);
            harmonicity :=
              Some (Multiply_set_units Positive (Multiply_new (o_harmonicity o)));
            readonly :=
              ["volume"; "voice0"; "voice1"; "frequency"; "vibratoAmount";
               "vibratoRate"] |};
       calls :=
         [ConnectCall OFrequency (OVoiceFrequency V0);
          ConnectCall OFrequency OHarmonicity;
          ConnectCall OHarmonicity (OVoiceFrequency V1);
          ConnectCall OVibrato OVibratoGain;
          ConnectCall OVibratoGain (OVoiceDetune V0);
          ConnectCall OVibratoGain (OVoiceDetune V1);
          ConnectCall (OVoice V0) OOutput;
          ConnectCall (OVoice V1) OOutput] |}.
Proof. reflexivity. Qed.

Lemma DuoSynth_new_live (options : option Options) :
  live (final (DuoSynth_new options)).
Proof.
  rewrite DuoSynth_new_eq. cbv zeta.
  constructor; simpl; try discriminate. reflexivity.
Qed.


(** ** Pitch scheduling *)

Lemma frequency_schedule_Some (a : automation) w f :
  frequency (this w) = Some f ->
  frequency_schedule a w = Ok tt (scheduled w f [a]).
Proof.
  intros Hf. unfold frequency_schedule.
  rewrite (bind_Ok _ _ _ _ _ (deref_Some _ _ _ _ Hf)).
  reflexivity.
Qed.

Lemma scheduled_frequency w f l :
  frequency (this (scheduled w f l)) = Some (schedule_on f l).
Proof. reflexivity. Qed.

Lemma scheduled_twice w f l1 l2 :
  scheduled (scheduled w f l1) (schedule_on f l1) l2 = scheduled w f (l1 ++ l2).
Proof.
  unfold scheduled, schedule_on. simpl.
  rewrite <- app_assoc. reflexivity.
Qed.

Lemma Monophonic_setNote_eq (note time : jsval) (w : World) (f : Signal) :
  frequency (this w) = Some f ->
  Monophonic_setNote note time w =
  Ok RetThis
    (scheduled w f
       (setNote_instructions (portamento (this w)) (sig_value f) note
          (toSeconds time))).
Proof.
  intros Hf. unfold Monophonic_setNote, read, setNote_instructions.
  unfold bind at 1.
  destruct (js_gt_zero (portamento (this w))) eqn:Hp.
  - rewrite (bind_Ok _ _ _ _ _ (deref_Some _ _ _ _ Hf)).
    rewrite (bind_Ok _ _ _ _ _ (frequency_schedule_Some _ _ _ Hf)).
    unfold bind at 1. simpl this.
    rewrite (bind_Ok _ _ _ _ _
               (frequency_schedule_Some _ _ _ (scheduled_frequency w f _))).
    rewrite scheduled_twice. reflexivity.
  - rewrite (bind_Ok _ _ _ _ _ (frequency_schedule_Some _ _ _ Hf)).
    reflexivity.
Qed.

Lemma Monophonic_setNote_null (note time : jsval) (w : World) :
  frequency (this w) = None ->
  exists e, Monophonic_setNote note time w = Throw e w.
Proof.
  intros Hf. unfold Monophonic_setNote, read.
  unfold bind at 1.
  destruct (deref_None "frequency" frequency w Hf) as [e He].
  assert (Hs : forall a, frequency_schedule a w = Throw e w).
  { intros a. unfold frequency_schedule. apply bind_Throw. exact He. }
  exists e.
  destruct (js_gt_zero (portamento (this w))).
  - apply bind_Throw. exact He.
  - apply bind_Throw. apply Hs.
Qed.

(** Zero is not a glide time, whichever its sign. *)
Example js_gt_zero_of_zero :
  js_gt_zero (JNumber 0%float) = false /\ js_gt_zero (JNumber (-0)%float) = false.
Proof. split; reflexivity. Qed.

(** ** The envelope hooks of DuoSynth *)

Lemma voice_call_Some i target method args w v0 v1 :
  voice0 (this w) = Some v0 -> voice1 (this w) = Some v1 ->
  voice_call i target method args w = Ok tt (called w [MethodCall target method args]).
Proof.
  intros H0 H1. unfold voice_call.
  destruct i; simpl voice_name; simpl voice_field.
  - rewrite (bind_Ok _ _ _ _ _ (deref_Some _ _ _ _ H0)). reflexivity.
  - rewrite (bind_Ok _ _ _ _ _ (deref_Some _ _ _ _ H1)). reflexivity.
Qed.

Lemma called_twice w cs1 cs2 :
  called (called w cs1) cs2 = called w (cs1 ++ cs2).
Proof. unfold called. simpl. rewrite <- app_assoc. reflexivity. Qed.

Lemma DuoSynth__triggerEnvelopeAttack_eq
    (time velocity : jsval) (w : World) (v0 v1 : MonoSynth) :
  voice0 (this w) = Some v0 ->
  voice1 (this w) = Some v1 ->
  DuoSynth__triggerEnvelopeAttack time velocity w =
  Ok RetThis (called w (attack_calls (JNumber (toSeconds time)) velocity)).
Proof.
  intros H0 H1. unfold DuoSynth__triggerEnvelopeAttack, attack_calls.
  rewrite (bind_Ok _ _ _ _ _ (voice_call_Some V0 _ _ _ w v0 v1 H0 H1)).
  rewrite (bind_Ok _ _ _ _ _ (voice_call_Some V1 _ _ _ (called w _) v0 v1 H0 H1)).
  rewrite called_twice.
  rewrite (bind_Ok _ _ _ _ _ (voice_call_Some V0 _ _ _ (called w _) v0 v1 H0 H1)).
  rewrite called_twice.
  rewrite (bind_Ok _ _ _ _ _ (voice_call_Some V1 _ _ _ (called w _) v0 v1 H0 H1)).
  rewrite called_twice.
  reflexivity.
Qed.

Lemma DuoSynth__triggerEnvelopeRelease_eq (time : jsval) w v0 v1 :
  voice0 (this w) = Some v0 ->
  voice1 (this w) = Some v1 ->
  DuoSynth__triggerEnvelopeRelease time w = Ok RetThis (called w (release_calls time)).
Proof.
  intros H0 H1. unfold DuoSynth__triggerEnvelopeRelease.
  rewrite (bind_Ok _ _ _ _ _ (voice_call_Some V0 _ _ _ w v0 v1 H0 H1)).
  rewrite (bind_Ok _ _ _ _ _ (voice_call_Some V1 _ _ _ (called w _) v0 v1 H0 H1)).
  rewrite called_twice.
  reflexivity.
Qed.


(** ** The trigger methods on a live DuoSynth *)

Lemma live_bound w :
  live w ->
  exists v0 v1 f,
    voice0 (this w) = Some v0 /\ voice1 (this w) = Some v1 /\
    frequency (this w) = Some f.
Proof.
  intros L.
  destruct (present_Some _ (live_voice0 w L)) as [v0 H0].
  destruct (present_Some _ (live_voice1 w L)) as [v1 H1].
  destruct (present_Some _ (live_frequency w L)) as [f Hf].
  exists v0, v1, f. repeat split; assumption.
Qed.

Lemma live_called w cs : live w -> live (called w cs).
Proof. intros [? ? ? ? ? ? ? ? ?]. constructor; simpl; assumption. Qed.

Lemma live_scheduled w f l : live w -> live (scheduled w f l).
Proof.
  intros [? ? ? ? ? ? ? ? ?]. constructor; simpl; try assumption. discriminate.
Qed.

Lemma DuoSynth_triggerAttack_eq (note time velocity : jsval) w v0 v1 f :
  voice0 (this w) = Some v0 ->
  voice1 (this w) = Some v1 ->
  frequency (this w) = Some f ->
  let t := JNumber (toSeconds time) in
  DuoSynth_triggerAttack note time velocity w =
  Ok RetThis
    (scheduled (called w (attack_calls (JNumber (toSeconds t)) velocity)) f
       (setNote_instructions (portamento (this w)) (sig_value f) note
          (toSeconds t))).
Proof.
  intros H0 H1 Hf t.
  unfold DuoSynth_triggerAttack, DuoSynth_instrument, triggerAttack.
  unfold Monophonic_triggerAttack, DuoSynth_monophonic,
    _triggerEnvelopeAttack, setNote.
  fold t.
  rewrite (bind_Ok _ _ _ _ _
             (DuoSynth__triggerEnvelopeAttack_eq t velocity w v0 v1 H0 H1)).
  rewrite (bind_Ok _ _ _ _ _ (Monophonic_setNote_eq note t (called w _) f Hf)).
  reflexivity.
Qed.

Lemma DuoSynth_triggerRelease_eq (time : jsval) w v0 v1 :
  voice0 (this w) = Some v0 ->
  voice1 (this w) = Some v1 ->
  DuoSynth_triggerRelease time w = Ok RetThis (called w (release_calls time)).
Proof.
  intros H0 H1.
  unfold DuoSynth_triggerRelease, DuoSynth_instrument, triggerRelease.
  unfold Monophonic_triggerRelease, DuoSynth_monophonic, _triggerEnvelopeRelease.
  rewrite (bind_Ok _ _ _ _ _
             (DuoSynth__triggerEnvelopeRelease_eq time w v0 v1 H0 H1)).
  reflexivity.
Qed.

Lemma DuoSynth_triggerAttackRelease_eq (note duration time velocity : jsval)
    w v0 v1 f :
  voice0 (this w) = Some v0 ->
  voice1 (this w) = Some v1 ->
  frequency (this w) = Some f ->
  let t := toSeconds time in
  let d := toSeconds duration in
  let t' := JNumber (toSeconds (JNumber t)) in
  DuoSynth_triggerAttackRelease note duration time velocity w =
  Ok RetThis
    (called
       (scheduled (called w (attack_calls (JNumber (toSeconds t')) velocity)) f
          (setNote_instructions (portamento (this w)) (sig_value f) note
             (toSeconds t')))
       (release_calls (JNumber (t + d)%float))).
Proof.
  intros H0 H1 Hf t d t'.
  unfold DuoSynth_triggerAttackRelease, Instrument_triggerAttackRelease.
  fold t d.
  change (triggerAttack DuoSynth_instrument) with DuoSynth_triggerAttack.
  change (triggerRelease DuoSynth_instrument) with DuoSynth_triggerRelease.
  rewrite (bind_Ok _ _ _ _ _
             (DuoSynth_triggerAttack_eq note (JNumber t) velocity w v0 v1 f
                H0 H1 Hf)).
  rewrite (bind_Ok _ _ _ _ _
             (DuoSynth_triggerRelease_eq _ (scheduled (called w _) f _) v0 v1
                H0 H1)).
  reflexivity.
Qed.


(** ** Operations keep an instance live and its graph wired *)

Lemma edges_called w cs :
  edges (calls (called w cs)) = fold_left graph_step cs (edges (calls w)).
Proof. unfold edges, called. simpl. apply fold_left_app. Qed.

Lemma edges_attack_release w t velocity :
  edges (calls (called w (attack_calls t velocity))) = edges (calls w) /\
  edges (calls (called w (release_calls t))) = edges (calls w).
Proof. split; rewrite edges_called; reflexivity. Qed.

(** Every operation short of [dispose] completes on a live instance,
    returns the instance, leaves it live, and makes or breaks no
    connection. *)
Lemma run_live (op : operation) (w : World) :
  live w ->
  op <> OpDispose ->
  exists w',
    run op w = Ok RetThis w' /\ live w' /\
    edges (calls w') = edges (calls w).
Proof.
  intros L Hop.
  destruct (live_bound w L) as (v0 & v1 & f & H0 & H1 & Hf).
  destruct op as [note time velocity | time | note duration time velocity
                 | note time | ]; simpl run.
  - eexists. split.
    + apply (DuoSynth_triggerAttack_eq note time velocity w v0 v1 f H0 H1 Hf).
    + split.
      * apply live_scheduled, live_called, L.
      * apply (edges_attack_release w).
  - eexists. split.
    + apply (DuoSynth_triggerRelease_eq time w v0 v1 H0 H1).
    + split.
      * apply live_called, L.
      * apply (edges_attack_release w time JUndefined).
  - eexists. split.
    + apply (DuoSynth_triggerAttackRelease_eq note duration time velocity
               w v0 v1 f H0 H1 Hf).
    + split.
      * apply live_called, live_scheduled, live_called, L.
      * rewrite edges_called. simpl fold_left.
        apply (edges_attack_release w).
  - eexists. split.
    + apply (Monophonic_setNote_eq note time w f Hf).
    + split.
      * apply live_scheduled, L.
      * reflexivity.
  - elim Hop. reflexivity.
Qed.

Lemma run_all_live (ops : list operation) (w : World) :
  live w ->
  Forall not_dispose ops ->
  live (snd (run_all ops w)) /\
  edges (calls (snd (run_all ops w))) = edges (calls w) /\
  Forall (fun o => o = inl RetThis) (fst (run_all ops w)).
Proof.
  intros L F. revert w L.
  induction F as [| op rest Hop _ IH]; intros w L.
  - simpl. split; [exact L | split; [reflexivity | constructor]].
  - destruct (run_live op w L Hop) as (w' & Hrun & L' & He).
    simpl. rewrite Hrun. simpl final.
    destruct (IH w' L') as (IL & IE & IO).
    destruct (run_all rest w') as [os w'']. simpl in *.
    split; [exact IL | split].
    + rewrite IE. exact He.
    + constructor; [reflexivity | exact IO].
Qed.


(** The operations short of [dispose] leave the harmonicity stage and
    the vibrato amount as they are. *)
Lemma run_live_stages (op : operation) (w : World) :
  live w ->
  op <> OpDispose ->
  harmonicity (this (final (run op w))) = harmonicity (this w) /\
  vibratoAmount (this (final (run op w))) = vibratoAmount (this w).
Proof.
  intros L Hop.
  destruct (live_bound w L) as (v0 & v1 & f & H0 & H1 & Hf).
  destruct op as [note time velocity | time | note duration time velocity
                 | note time | ]; simpl run.
  - rewrite (DuoSynth_triggerAttack_eq note time velocity w v0 v1 f H0 H1 Hf).
    split; reflexivity.
  - rewrite (DuoSynth_triggerRelease_eq time w v0 v1 H0 H1).
    split; reflexivity.
  - rewrite (DuoSynth_triggerAttackRelease_eq note duration time velocity
               w v0 v1 f H0 H1 Hf).
    split; reflexivity.
  - rewrite (Monophonic_setNote_eq note time w f Hf).
    split; reflexivity.
  - elim Hop. reflexivity.
Qed.

Lemma run_all_stages (ops : list operation) (w : World) :
  live w ->
  Forall not_dispose ops ->
  harmonicity (this (snd (run_all ops w))) = harmonicity (this w) /\
  vibratoAmount (this (snd (run_all ops w))) = vibratoAmount (this w).
Proof.
  intros L F. revert w L.
  induction F as [| op rest Hop _ IH]; intros w L.
  - simpl. split; reflexivity.
  - destruct (run_live op w L Hop) as (w' & Hrun & L' & _).
    destruct (run_live_stages op w L Hop) as [Hh Ha].
    rewrite Hrun in Hh, Ha. simpl final in Hh, Ha.
    simpl. rewrite Hrun. simpl final.
    destruct (IH w' L') as [IHh IHa].
    destruct (run_all rest w') as [os w'']. simpl in IHh, IHa. simpl snd.
    split.
    + rewrite IHh. exact Hh.
    + rewrite IHa. exact Ha.
Qed.

(** ** Claims *)

(** C1. On every instance, from construction on and through any
    operations short of [dispose], the frequency signal is the one driver
    of voice0's pitch input and, through the harmonicity stage, of
    voice1's, and the stage holds the harmonicity the instance was built
    with; so at every instant the pitch driving voice0 is the frequency
    signal and the pitch driving voice1 is the pitch driving voice0 times
    the harmonicity ratio. *)
Theorem harmonicity_ratio_invariant
    (options : option Options) (ops : list operation) (t : instant) :
  Forall not_dispose ops ->
  let o := defaultArg_options options DuoSynth_defaults in
  let w := snd (run_all ops (final (DuoSynth_new options))) in
  let g := edges (calls w) in
  drivers g (OVoiceFrequency V0) = [OFrequency] /\
  drivers g (OVoiceFrequency V1) = [OHarmonicity] /\
  drivers g OHarmonicity = [OFrequency] /\
  harmonicity_ratio w = js_number (o_harmonicity o) /\
  pitch_input w V0 t = generated t OFrequency /\
  pitch_input w V1 t = (pitch_input w V0 t * harmonicity_ratio w)%float.
Proof.
  intros F o w g.
  destruct (run_all_live ops _ (DuoSynth_new_live options) F) as (_ & He & _).
  destruct (run_all_stages ops _ (DuoSynth_new_live options) F) as [Hh _].
  fold w in He, Hh.
  assert (Hratio : harmonicity_ratio w = js_number (o_harmonicity o)).
  { unfold harmonicity_ratio. rewrite Hh, DuoSynth_new_eq. reflexivity. }
  assert (Hg : g = edges (calls (final (DuoSynth_new options)))) by exact He.
  rewrite DuoSynth_new_eq in Hg. cbv zeta in Hg. simpl in Hg.
  unfold pitch_input. fold g. rewrite Hg.
  split; [reflexivity | split; [reflexivity | split; [reflexivity | ]]].
  split; [exact Hratio | ].
  split; reflexivity.
Qed.

(** C2. [setNote(note, time)] follows the two-branch policy.  With
    [portamento > 0] the frequency signal receives a set-point that pins
    its current value at the resolved time, then an exponential ramp to
    [note] that lands at the resolved time plus the resolved portamento.
    Otherwise (so with [portamento == 0]) it receives the single
    set-point of [note] at the resolved time.  Nothing else is scheduled,
    no other state moves, and the instance is returned. *)
Theorem setNote_policy (note time : jsval) (w : World) (f : Signal) :
  frequency (this w) = Some f ->
  let t := toSeconds time in
  let p := portamento (this w) in
  Monophonic_setNote note time w =
  Ok RetThis
    (scheduled w f
       (if js_gt_zero p
        then [SetValueAtTime (sig_value f) t;
              ExponentialRampToValueAtTime note (t + toSeconds p)%float]
        else [SetValueAtTime note t])).
Proof.
  intros Hf t p.
  rewrite (Monophonic_setNote_eq note time w f Hf).
  unfold setNote_instructions. fold t p.
  destruct (js_gt_zero p); reflexivity.
Qed.

(** C3. [triggerAttackRelease(note, d, t, v)] resolves [t] and [d] to
    seconds and then does what [triggerAttack(note, t, v)] immediately
    followed by [triggerRelease(t + d)] does, whichever methods the
    instance answers with; it returns the instance.  On a live DuoSynth
    the call completes. *)
Theorem triggerAttackRelease_is_attack_then_release :
  (forall (self : InstrumentMethods) (note duration time velocity : jsval)
          (w : World),
      let t := toSeconds time in
      let d := toSeconds duration in
      Instrument_triggerAttackRelease self note duration time velocity w =
      in_sequence (triggerAttack self note (JNumber t) velocity)
                  (triggerRelease self (JNumber (t + d)%float)) w) /\
  (forall (note duration time velocity : jsval) (w : World),
      live w ->
      exists w',
        DuoSynth_triggerAttackRelease note duration time velocity w =
        Ok RetThis w' /\ live w').
Proof.
  split.
  - intros self note duration time velocity w t d.
    unfold Instrument_triggerAttackRelease, in_sequence, bind, ret.
    fold t d.
    destruct (triggerAttack self note (JNumber t) velocity w) as [r1 w1 | e w1];
      [ | reflexivity].
    destruct (triggerRelease self (JNumber (t + d)%float) w1) as [r2 w2 | e w2];
      reflexivity.
  - intros note duration time velocity w L.
    destruct (run_live (OpTriggerAttackRelease note duration time velocity) w L)
      as (w' & Hrun & L' & _).
    + discriminate.
    + exists w'. split; assumption.
Qed.

(** C6. [Monophonic.triggerAttack(note, time, velocity)] resolves the
    time, calls the envelope-attack hook with the resolved time and the
    velocity, then [setNote] with the note and the resolved time, in this
    order, and returns the instance.  On a live DuoSynth the call
    completes. *)
Theorem Monophonic_triggerAttack_steps :
  (forall (self : MonophonicMethods) (note time velocity : jsval) (w : World),
      let t := JNumber (toSeconds time) in
      Monophonic_triggerAttack self note time velocity w =
      in_sequence (_triggerEnvelopeAttack self t velocity)
                  (setNote self note t) w) /\
  (forall (note time velocity : jsval) (w : World),
      live w ->
      exists w',
        Monophonic_triggerAttack DuoSynth_monophonic note time velocity w =
        Ok RetThis w' /\ live w').
Proof.
  split.
  - intros self note time velocity w t.
    unfold Monophonic_triggerAttack, in_sequence, bind, ret.
    fold t.
    destruct (_triggerEnvelopeAttack self t velocity w) as [r1 w1 | e w1];
      [ | reflexivity].
    destruct (setNote self note t w1) as [r2 w2 | e w2]; reflexivity.
  - intros note time velocity w L.
    destruct (run_live (OpTriggerAttack note time velocity) w L)
      as (w' & Hrun & L' & _).
    + discriminate.
    + exists w'. split; assumption.
Qed.

(** C7. [_triggerEnvelopeAttack(time, velocity)] calls the amplitude
    envelope of voice0 and of voice1 with the resolved time and the
    velocity, then the filter envelope of voice0 and of voice1 with the
    resolved time alone: the velocity is not among the arguments. *)
Theorem DuoSynth__triggerEnvelopeAttack_forwards
    (time velocity : jsval) (w : World) (v0 v1 : MonoSynth) :
  voice0 (this w) = Some v0 ->
  voice1 (this w) = Some v1 ->
  DuoSynth__triggerEnvelopeAttack time velocity w =
  Ok RetThis
    (called w
       [MethodCall (OVoiceEnvelope V0) "triggerAttack"
          [JNumber (toSeconds time); velocity];
        MethodCall (OVoiceEnvelope V1) "triggerAttack"
          [JNumber (toSeconds time); velocity];
        MethodCall (OVoiceFilterEnvelope V0) "triggerAttack"
          [JNumber (toSeconds time)];
        MethodCall (OVoiceFilterEnvelope V1) "triggerAttack"
          [JNumber (toSeconds time)]]).
Proof.
  intros H0 H1.
  rewrite (DuoSynth__triggerEnvelopeAttack_eq time velocity w v0 v1 H0 H1).
  unfold attack_calls. reflexivity.
Qed.


(** ** Glides and earlier automation *)

Lemma pending_app (log more : list automation) :
  pending (log ++ more) = fold_left timeline_step more (pending log).
Proof. unfold pending. apply fold_left_app. Qed.

(** C4, amended. With [portamento > 0], [setNote] schedules the hold and
    the ramp and nothing else: no cancellation is issued, the two
    instructions come after all the automation the frequency signal had
    received, and every point that was pending is still pending. *)
Theorem glide_keeps_earlier_automation
    (note time : jsval) (w : World) (f : Signal) :
  frequency (this w) = Some f ->
  js_gt_zero (portamento (this w)) = true ->
  let hold := SetValueAtTime (sig_value f) (toSeconds time) in
  let ramp :=
    ExponentialRampToValueAtTime note
      (toSeconds time + toSeconds (portamento (this w)))%float in
  exists w',
    Monophonic_setNote note time w = Ok RetThis w' /\
    frequency_automation w' = frequency_automation w ++ [hold; ramp] /\
    pending (frequency_automation w') =
      pending (frequency_automation w) ++ [hold; ramp] /\
    forall a, In a (pending (frequency_automation w)) ->
              In a (pending (frequency_automation w')).
Proof.
  intros Hf Hp hold ramp.
  eexists. split.
  - apply (Monophonic_setNote_eq note time w f Hf).
  - unfold setNote_instructions. rewrite Hp. fold hold ramp.
    assert (Hlog : frequency_automation (scheduled w f [hold; ramp]) =
                   frequency_automation w ++ [hold; ramp]).
    { unfold frequency_automation. rewrite Hf. reflexivity. }
    assert (Hpend : pending (frequency_automation (scheduled w f [hold; ramp])) =
                    pending (frequency_automation w) ++ [hold; ramp]).
    { rewrite Hlog, pending_app. simpl.
      rewrite <- app_assoc. reflexivity. }
    split; [exact Hlog | split; [exact Hpend | ]].
    intros a Ha. rewrite Hpend. apply in_or_app. left. exact Ha.
Qed.

(** C10. Right after construction the frequency signal reads 440 and has
    no automation; so on an instance built with [portamento > 0] the
    first [setNote] pins 440 as the hold value and ramps exponentially
    from there, whatever the note. *)
Theorem first_glide_starts_at_440
    (options : option Options) (note time : jsval) :
  let w0 := final (DuoSynth_new options) in
  js_gt_zero (portamento (this w0)) = true ->
  DuoSynth_new options = Ok tt w0 /\
  frequency (this w0) = Some (Signal_new 440%float Frequency) /\
  exists w1,
    Monophonic_setNote note time w0 = Ok RetThis w1 /\
    frequency_automation w1 =
      [SetValueAtTime (JNumber 440%float) (toSeconds time);
       ExponentialRampToValueAtTime note
         (toSeconds time + toSeconds (portamento (this w0)))%float].
Proof.
  intros w0 Hp.
  assert (Hf : frequency (this w0) = Some (Signal_new 440%float Frequency)).
  { unfold w0. rewrite DuoSynth_new_eq. reflexivity. }
  split; [ | split; [exact Hf | ]].
  - unfold w0. rewrite DuoSynth_new_eq. reflexivity.
  - eexists. split.
    + apply (Monophonic_setNote_eq note time w0 _ Hf).
    + unfold setNote_instructions. rewrite Hp. reflexivity.
Qed.

(** ** Voice levels *)

(** Whatever the options say and whatever the voice constructor makes of
    them, both voices leave the constructor at -10. *)
Lemma DuoSynth_new_voice_volume (options : option Options) :
  let w := final (DuoSynth_new options) in
  option_map ms_volume_value (voice0 (this w)) = Some (JNumber (-10)%float) /\
  option_map ms_volume_value (voice1 (this w)) = Some (JNumber (-10)%float).
Proof.
  intros w. unfold w. rewrite DuoSynth_new_eq. split; reflexivity.
Qed.


(** ** Teardown *)

Lemma DuoSynth_dispose_live (w : World) :
  live w -> DuoSynth_dispose w = Ok RetThis (disposed w).
Proof.
  intros [Lvol L0 L1 Lv Lg La Lf Lh Lro].
  destruct w as [i cs]. destruct i. simpl in *.
  destruct volume0; [ | elim Lvol; reflexivity].
  destruct voice2; [ | elim L0; reflexivity].
  destruct voice3; [ | elim L1; reflexivity].
  destruct _vibrato0; [ | elim Lv; reflexivity].
  destruct _vibratoGain0; [ | elim Lg; reflexivity].
  destruct vibratoAmount0; [ | elim La; reflexivity].
  destruct frequency0; [ | elim Lf; reflexivity].
  destruct harmonicity0; [ | elim Lh; reflexivity].
  subst readonly0.
  unfold disposed, dispose_calls. simpl.
  cbv -[app]. repeat rewrite <- app_assoc. reflexivity.
Qed.

Lemma disposed_rejects (op : operation) (w : World) :
  exists reason w', run op (disposed w) = Throw (TypeError reason) w'.
Proof.
  destruct op as [note time velocity | time | note duration time velocity
                 | note time | ].
  - eexists. eexists. reflexivity.
  - eexists. eexists. reflexivity.
  - eexists. eexists. reflexivity.
  - destruct (Monophonic_setNote_null note time (disposed w) eq_refl)
      as [[reason] He].
    exists reason, (disposed w). exact He.
  - eexists. eexists. reflexivity.
Qed.

(** C8. [dispose] on a live instance completes and leaves [voice0],
    [voice1], [frequency], [vibratoAmount], [vibratoRate] and the base
    layer's [volume] null; every operation after it raises a [TypeError]
    instead of completing. *)
Theorem dispose_clears_and_disables (w : World) :
  live w ->
  exists w',
    DuoSynth_dispose w = Ok RetThis w' /\
    (voice0 (this w') = None /\ voice1 (this w') = None /\
     frequency (this w') = None /\ vibratoAmount (this w') = None /\
     vibratoRate (this w') = None /\ volume (this w') = None) /\
    forall op : operation,
      exists reason w'', run op w' = Throw (TypeError reason) w''.
Proof.
  intros L. exists (disposed w). split.
  - apply DuoSynth_dispose_live, L.
  - split.
    + unfold disposed. simpl. repeat split.
    + intros op. apply disposed_rejects.
Qed.


(** ** vibratoDelay *)

Lemma blind_ret {A} (a : A) : blind (ret a).
Proof. intros w. reflexivity. Qed.

Lemma blind_bind {A B} (m : M A) (k : A -> M B) :
  blind m -> (forall a, blind (k a)) -> blind (bind m k).
Proof.
  intros Hm Hk w. unfold bind. rewrite Hm.
  destruct (m w) as [a w' | e w']; simpl.
  - apply Hk.
  - reflexivity.
Qed.

Lemma blind_read {T} (field : Instance -> T) :
  (forall v i, field (set__vibratoDelay v i) = field i) -> blind (read field).
Proof. intros H w. unfold read. simpl. rewrite H. reflexivity. Qed.

Lemma blind_deref {T} name (field : Instance -> option T) :
  (forall v i, field (set__vibratoDelay v i) = field i) ->
  blind (deref name field).
Proof.
  intros H w. unfold deref. simpl. rewrite H.
  destruct (field (this w)); reflexivity.
Qed.

Lemma blind_mutate (update : Instance -> Instance) :
  (forall i, update (set__vibratoDelay JUndefined i) =
             set__vibratoDelay JUndefined (update i)) ->
  blind (mutate update).
Proof. intros H w. unfold mutate. simpl. rewrite H. reflexivity. Qed.

Lemma blind_assign name (update : Instance -> Instance) :
  (forall i, update (set__vibratoDelay JUndefined i) =
             set__vibratoDelay JUndefined (update i)) ->
  blind (assign name update).
Proof.
  intros H w. unfold assign. simpl.
  destruct (existsb (String.eqb name) (readonly (this w))); simpl.
  - reflexivity.
  - rewrite H. reflexivity.
Qed.

Lemma blind_emit (c : call) : blind (emit c).
Proof. intros w. reflexivity. Qed.

Ltac blind_step :=
  first
    [ apply blind_ret
    | apply blind_emit
    | apply blind_mutate; intros; reflexivity
    | apply blind_assign; intros; reflexivity
    | apply blind_deref; intros; reflexivity
    | apply blind_read; intros; reflexivity
    | apply blind_bind; [ | intros ] ].

Lemma blind_frequency_schedule a : blind (frequency_schedule a).
Proof. unfold frequency_schedule. repeat blind_step. Qed.

Lemma blind_setNote note time : blind (Monophonic_setNote note time).
Proof.
  unfold Monophonic_setNote.
  apply blind_bind; [blind_step | intros p].
  destruct (js_gt_zero p);
    repeat first [apply blind_frequency_schedule | blind_step].
Qed.

Lemma blind_voice_call i target method args :
  blind (voice_call i target method args).
Proof. unfold voice_call. destruct i; repeat blind_step. Qed.

Lemma blind_triggerAttack note time velocity :
  blind (DuoSynth_triggerAttack note time velocity).
Proof.
  unfold DuoSynth_triggerAttack, DuoSynth_instrument, triggerAttack,
    Monophonic_triggerAttack, DuoSynth_monophonic, _triggerEnvelopeAttack,
    setNote, DuoSynth__triggerEnvelopeAttack.
  repeat first [apply blind_setNote | apply blind_voice_call | blind_step].
Qed.

Lemma blind_triggerRelease time : blind (DuoSynth_triggerRelease time).
Proof.
  unfold DuoSynth_triggerRelease, DuoSynth_instrument, triggerRelease,
    Monophonic_triggerRelease, DuoSynth_monophonic, _triggerEnvelopeRelease,
    DuoSynth__triggerEnvelopeRelease.
  repeat first [apply blind_voice_call | blind_step].
Qed.

Lemma blind_dispose : blind DuoSynth_dispose.
Proof.
  unfold DuoSynth_dispose, Monophonic_dispose, Instrument_dispose,
    Tone_dispose, _writable.
  repeat first [apply blind_voice_call | blind_step].
Qed.

Lemma blind_run (op : operation) : blind (run op).
Proof.
  destruct op as [note time velocity | time | note duration time velocity
                 | note time | ]; simpl run.
  - apply blind_triggerAttack.
  - apply blind_triggerRelease.
  - unfold DuoSynth_triggerAttackRelease, Instrument_triggerAttackRelease.
    change (triggerAttack DuoSynth_instrument) with DuoSynth_triggerAttack.
    change (triggerRelease DuoSynth_instrument) with DuoSynth_triggerRelease.
    repeat first [apply blind_triggerAttack | apply blind_triggerRelease
                 | blind_step].
  - apply blind_setNote.
  - apply blind_dispose.
Qed.

Lemma run_all_forget (ops : list operation) (w : World) :
  run_all ops (forget_vibratoDelay w) =
  (fst (run_all ops w), forget_vibratoDelay (snd (run_all ops w))).
Proof.
  revert w. induction ops as [| op rest IH]; intros w.
  - reflexivity.
  - simpl. rewrite (blind_run op w).
    destruct (run op w) as [r w' | e w']; simpl;
      rewrite IH; destruct (run_all rest w'); reflexivity.
Qed.

(** C9. [vibratoDelay] is resolved to seconds by the constructor and
    kept in [_vibratoDelay]; nothing reads it afterwards.  Two instances
    built from options that differ in [vibratoDelay] alone answer every
    sequence of operations with the same outcomes and end in states that
    agree on every field but [_vibratoDelay] and on every call made to a
    collaborator. *)
Theorem vibratoDelay_has_no_effect (a b : Options) (ops : list operation) :
  same_but_vibratoDelay a b ->
  let wa := final (DuoSynth_new (Some a)) in
  let wb := final (DuoSynth_new (Some b)) in
  _vibratoDelay (this wa) =
    JNumber (toSeconds (defaultArg (o_vibratoDelay a) (JNumber 1%float))) /\
  fst (run_all ops wa) = fst (run_all ops wb) /\
  forget_vibratoDelay (snd (run_all ops wa)) =
  forget_vibratoDelay (snd (run_all ops wb)).
Proof.
  intros (Hamt & Hrate & Hharm & Hv0 & Hv1 & Hport) wa wb.
  assert (Hsame : forget_vibratoDelay wa = forget_vibratoDelay wb).
  { unfold wa, wb. rewrite !DuoSynth_new_eq.
    destruct a, b. simpl in Hamt, Hrate, Hharm, Hv0, Hv1, Hport.
    subst. reflexivity. }
  split.
  - unfold wa. rewrite DuoSynth_new_eq. reflexivity.
  - pose proof (run_all_forget ops wa) as Ha.
    pose proof (run_all_forget ops wb) as Hb.
    rewrite Hsame in Ha. rewrite Ha in Hb.
    split.
    + exact (f_equal fst Hb).
    + exact (f_equal snd Hb).
Qed.

(** * Further properties *)

(** ** The graph from construction to teardown *)

Lemma constructed_edges (options : option Options) :
  edges (calls (final (DuoSynth_new options))) = constructor_edges.
Proof. rewrite DuoSynth_new_eq. reflexivity. Qed.

Lemma operated_edges (options : option Options) (ops : list operation) :
  Forall not_dispose ops ->
  live (snd (run_all ops (final (DuoSynth_new options)))) /\
  edges (calls (snd (run_all ops (final (DuoSynth_new options))))) =
  constructor_edges.
Proof.
  intros F.
  destruct (run_all_live ops _ (DuoSynth_new_live options) F) as (L & He & _).
  split; [exact L | ].
  rewrite He. apply constructed_edges.
Qed.

(** X1. From construction on and through any operations short of
    [dispose], the signal graph is exactly the eight connections the
    constructor made: no operation connects or disconnects anything. *)
Theorem graph_fixed_until_dispose
    (options : option Options) (ops : list operation) :
  Forall not_dispose ops ->
  edges (calls (snd (run_all ops (final (DuoSynth_new options))))) =
  [(OFrequency, OVoiceFrequency V0);
   (OFrequency, OHarmonicity);
   (OHarmonicity, OVoiceFrequency V1);
   (OVibrato, OVibratoGain);
   (OVibratoGain, OVoiceDetune V0);
   (OVibratoGain, OVoiceDetune V1);
   (OVoice V0, OOutput);
   (OVoice V1, OOutput)].
Proof.
  intros F.
  destruct (operated_edges options ops F) as [_ He].
  rewrite He. reflexivity.
Qed.

(** X2. The vibrato gain stage is the one driver of both voices' detune
    inputs, itself driven by the vibrato oscillator alone, and its gain is
    the vibrato amount the instance was built with: at every instant both
    detune inputs carry the same signal, the oscillator's output times
    that amount. *)
Theorem vibrato_synchronised
    (options : option Options) (ops : list operation) (t : instant) :
  Forall not_dispose ops ->
  let o := defaultArg_options options DuoSynth_defaults in
  let w := snd (run_all ops (final (DuoSynth_new options))) in
  let g := edges (calls w) in
  drivers g (OVoiceDetune V0) = [OVibratoGain] /\
  drivers g (OVoiceDetune V1) = [OVibratoGain] /\
  drivers g OVibratoGain = [OVibrato] /\
  vibrato_amount w = js_number (o_vibratoAmount o) /\
  detune_input w V0 t = (generated t OVibrato * vibrato_amount w)%float /\
  detune_input w V1 t = detune_input w V0 t.
Proof.
  intros F o w g.
  destruct (operated_edges options ops F) as [_ He].
  destruct (run_all_stages ops _ (DuoSynth_new_live options) F) as [_ Ha].
  fold w in He, Ha.
  assert (Hamount : vibrato_amount w = js_number (o_vibratoAmount o)).
  { unfold vibrato_amount. rewrite Ha, DuoSynth_new_eq. reflexivity. }
  unfold detune_input. fold g.
  assert (Hg : g = constructor_edges) by exact He.
  rewrite Hg. unfold constructor_edges.
  split; [reflexivity | split; [reflexivity | split; [reflexivity | ]]].
  split; [exact Hamount | ].
  split; reflexivity.
Qed.

(** X3. [dispose] releases every stage the constructor connected from:
    once it has run on an instance that was constructed and operated,
    none of the constructor's connections is left. *)
Theorem dispose_severs_every_connection
    (options : option Options) (ops : list operation) :
  Forall not_dispose ops ->
  let w := snd (run_all ops (final (DuoSynth_new options))) in
  exists w',
    DuoSynth_dispose w = Ok RetThis w' /\ edges (calls w') = [].
Proof.
  intros F w.
  destruct (operated_edges options ops F) as [L He]. fold w in L, He.
  exists (disposed w). split.
  - apply DuoSynth_dispose_live, L.
  - unfold disposed. simpl calls. unfold edges.
    rewrite fold_left_app. fold (edges (calls w)). rewrite He.
    reflexivity.
Qed.

(** X4. From construction until [dispose], re-binding [volume],
    [voice0], [voice1], [frequency], [vibratoAmount] or [vibratoRate]
    raises a [TypeError] and changes nothing; [harmonicity] and
    [portamento] are not frozen and can be re-bound. *)
Theorem exposed_bindings_are_frozen
    (options : option Options) (ops : list operation) :
  Forall not_dispose ops ->
  let w := snd (run_all ops (final (DuoSynth_new options))) in
  (forall name update,
      In name frozen_names ->
      exists reason, assign name update w = Throw (TypeError reason) w) /\
  (forall name update,
      name = "harmonicity" \/ name = "portamento" ->
      assign name update w =
      Ok tt {| this := update (this w); calls := calls w |}).
Proof.
  intros F w.
  destruct (operated_edges options ops F) as [L _]. fold w in L.
  pose proof (live_readonly w L) as Hro.
  split.
  - intros name update Hin. unfold assign. rewrite Hro.
    unfold frozen_names in Hin. simpl in Hin.
    destruct Hin as [<- | [<- | [<- | [<- | [<- | [<- | []]]]]]];
      eexists; reflexivity.
  - intros name update [-> | ->]; unfold assign; rewrite Hro; reflexivity.
Qed.

(** ** What the operations change *)

Lemma scheduled_called w cs f l :
  scheduled (called w cs) f l = called (scheduled w f l) cs.
Proof. reflexivity. Qed.

Lemma scheduled_nothing w f :
  frequency (this w) = Some f -> scheduled w f [] = w.
Proof.
  destruct w as [i cs]. destruct i. simpl. intros ->.
  unfold scheduled, schedule_on. simpl.
  rewrite app_nil_r. destruct f. reflexivity.
Qed.

Lemma called_nothing w : called w [] = w.
Proof. destruct w as [i cs]. unfold called. simpl. rewrite app_nil_r. reflexivity. Qed.

Lemma setNote_instructions_points p current note t :
  Forall schedules_a_point (setNote_instructions p current note t).
Proof.
  unfold setNote_instructions.
  destruct (js_gt_zero p); repeat constructor.
Qed.

Lemma attack_calls_trigger t velocity :
  Forall triggers_a_voice (attack_calls t velocity).
Proof. unfold attack_calls. repeat constructor. Qed.

Lemma release_calls_trigger time :
  Forall triggers_a_voice (release_calls time).
Proof. unfold release_calls. repeat constructor. Qed.

Lemma run_appends (op : operation) (w : World) (f : Signal) :
  live w ->
  frequency (this w) = Some f ->
  op <> OpDispose ->
  exists cs l,
    run op w = Ok RetThis (called (scheduled w f l) cs) /\
    Forall schedules_a_point l /\ Forall triggers_a_voice cs.
Proof.
  intros L Hf Hop.
  destruct (live_bound w L) as (v0 & v1 & f' & H0 & H1 & Hf').
  destruct op as [note time velocity | time | note duration time velocity
                 | note time | ]; simpl run.
  - eexists. eexists. split.
    + rewrite (DuoSynth_triggerAttack_eq note time velocity w v0 v1 f H0 H1 Hf).
      cbv zeta. rewrite scheduled_called. reflexivity.
    + split; [apply setNote_instructions_points | apply attack_calls_trigger].
  - exists (release_calls time), []. split.
    + rewrite (DuoSynth_triggerRelease_eq time w v0 v1 H0 H1).
      rewrite (scheduled_nothing w f Hf). reflexivity.
    + split; [constructor | apply release_calls_trigger].
  - eexists. eexists. split.
    + rewrite (DuoSynth_triggerAttackRelease_eq note duration time velocity
                 w v0 v1 f H0 H1 Hf).
      cbv zeta. rewrite scheduled_called, called_twice. reflexivity.
    + split; [apply setNote_instructions_points | ].
      apply Forall_app. split;
        [apply attack_calls_trigger | apply release_calls_trigger].
  - eexists. eexists. split.
    + rewrite (Monophonic_setNote_eq note time w f Hf).
      rewrite <- (called_nothing (scheduled w f _)) at 1. reflexivity.
    + split; [apply setNote_instructions_points | constructor].
  - elim Hop. reflexivity.
Qed.

(** X5. Operations short of [dispose] only append.  After any sequence
    of them on a live instance every field but the frequency signal's
    automation is as it was (no binding is re-bound, [portamento] and the
    signal's current value and units are untouched); the automation has
    only gained set-points and exponential ramps, never a cancellation or
    a linear ramp; and the only calls made are triggers on the two voices
    and their envelopes.  Every operation returned the instance. *)
Theorem operations_only_append
    (ops : list operation) (w : World) (f : Signal) :
  live w ->
  frequency (this w) = Some f ->
  Forall not_dispose ops ->
  exists cs l,
    snd (run_all ops w) = called (scheduled w f l) cs /\
    Forall schedules_a_point l /\
    Forall triggers_a_voice cs /\
    Forall (fun o => o = inl RetThis) (fst (run_all ops w)).
Proof.
  intros L Hf F. revert w f L Hf.
  induction F as [| op rest Hop _ IH]; intros w f L Hf.
  - exists [], []. simpl.
    rewrite called_nothing, (scheduled_nothing w f Hf).
    repeat split; constructor.
  - destruct (run_appends op w f L Hf Hop) as (cs1 & l1 & Hrun & Hl1 & Hc1).
    assert (L1 : live (called (scheduled w f l1) cs1)).
    { apply live_called, live_scheduled, L. }
    destruct (IH _ (schedule_on f l1) L1 eq_refl)
      as (cs2 & l2 & Hrest & Hl2 & Hc2 & Hout).
    exists (cs1 ++ cs2), (l1 ++ l2).
    simpl. rewrite Hrun. simpl final.
    destruct (run_all rest (called (scheduled w f l1) cs1)) as [os w''].
    simpl in *. subst w''.
    split.
    + rewrite scheduled_called, scheduled_twice, called_twice. reflexivity.
    + split; [apply Forall_app; split; assumption | ].
      split; [apply Forall_app; split; assumption | ].
      constructor; [reflexivity | exact Hout].
Qed.

(** X6. [triggerRelease(time)] hands the time on as it was given, not
    resolved, to [triggerRelease] of voice0 and then of voice1; it
    schedules nothing on the frequency signal and changes no field. *)
Theorem release_leaves_pitch_alone
    (time : jsval) (w : World) (v0 v1 : MonoSynth) :
  voice0 (this w) = Some v0 ->
  voice1 (this w) = Some v1 ->
  exists w',
    DuoSynth_triggerRelease time w = Ok RetThis w' /\
    this w' = this w /\
    frequency_automation w' = frequency_automation w /\
    calls w' =
      calls w ++ [MethodCall (OVoice V0) "triggerRelease" [time];
                  MethodCall (OVoice V1) "triggerRelease" [time]].
Proof.
  intros H0 H1. eexists. split.
  - apply (DuoSynth_triggerRelease_eq time w v0 v1 H0 H1).
  - repeat split.
Qed.

(** X7. When [toSeconds] returns a number as it is, one [triggerAttack]
    uses one instant: both amplitude envelopes, both filter envelopes and
    the pitch instruction (the hold of a glide, or the discrete set) all
    carry the same resolved time, although the time is resolved again in
    the hook and in [setNote]. *)
Theorem attack_uses_one_instant
    (note time velocity : jsval) (w : World) (v0 v1 : MonoSynth) (f : Signal) :
  (forall x, toSeconds (JNumber x) = x) ->
  voice0 (this w) = Some v0 ->
  voice1 (this w) = Some v1 ->
  frequency (this w) = Some f ->
  let t := toSeconds time in
  DuoSynth_triggerAttack note time velocity w =
  Ok RetThis
    (scheduled
       (called w
          [MethodCall (OVoiceEnvelope V0) "triggerAttack" [JNumber t; velocity];
           MethodCall (OVoiceEnvelope V1) "triggerAttack" [JNumber t; velocity];
           MethodCall (OVoiceFilterEnvelope V0) "triggerAttack" [JNumber t];
           MethodCall (OVoiceFilterEnvelope V1) "triggerAttack" [JNumber t]])
       f
       (if js_gt_zero (portamento (this w))
        then [SetValueAtTime (sig_value f) t;
              ExponentialRampToValueAtTime note
                (t + toSeconds (portamento (this w)))%float]
        else [SetValueAtTime note t])).
Proof.
  intros Hnum H0 H1 Hf t.
  rewrite (DuoSynth_triggerAttack_eq note time velocity w v0 v1 f H0 H1 Hf).
  cbv zeta. rewrite Hnum. fold t.
  unfold attack_calls, setNote_instructions. simpl portamento.
  destruct (js_gt_zero (portamento (this w))); reflexivity.
Qed.

(** X8. When [toSeconds] returns a number as it is,
    [triggerAttackRelease(note, duration, time, velocity)] on a DuoSynth
    makes six collaborator calls, the four envelope attacks at the
    resolved time followed by [triggerRelease] on voice0 and on voice1 at
    the resolved time plus the resolved duration; the frequency signal
    gains the pitch instruction of [setNote] at the resolved time and
    nothing else, so the release schedules nothing on it. *)
Theorem attackRelease_schedule
    (note duration time velocity : jsval) (w : World)
    (v0 v1 : MonoSynth) (f : Signal) :
  (forall x, toSeconds (JNumber x) = x) ->
  voice0 (this w) = Some v0 ->
  voice1 (this w) = Some v1 ->
  frequency (this w) = Some f ->
  let t := toSeconds time in
  let d := toSeconds duration in
  DuoSynth_triggerAttackRelease note duration time velocity w =
  Ok RetThis
    (called
       (scheduled w f
          (setNote_instructions (portamento (this w)) (sig_value f) note t))
       (attack_calls (JNumber t) velocity ++
        release_calls (JNumber (t + d)%float))).
Proof.
  intros Hnum H0 H1 Hf t d.
  rewrite (DuoSynth_triggerAttackRelease_eq note duration time velocity
             w v0 v1 f H0 H1 Hf).
  cbv zeta. rewrite !Hnum. fold t d.
  rewrite scheduled_called, called_twice. reflexivity.
Qed.

(** ** Which portamento glides *)

Lemma constructed_portamento (options : option Options) :
  portamento (this (final (DuoSynth_new options))) =
  defaultArg (o_portamento (defaultArg_options options DuoSynth_defaults))
    Monophonic_defaults_portamento /\
  frequency (this (final (DuoSynth_new options))) =
  Some (Signal_new 440%float Frequency).
Proof. rewrite DuoSynth_new_eq. split; reflexivity. Qed.

(** X9. An instance built without a [portamento] option takes
    [Tone.Monophonic.defaults.portamento], zero, and never glides: every
    [setNote] on it schedules the one discrete set-point of the note. *)
Theorem default_portamento_never_glides
    (options : option Options) (note time : jsval) :
  match options with
  | Some o => o_portamento o = JUndefined
  | None => True
  end ->
  let w := final (DuoSynth_new options) in
  portamento (this w) = JNumber 0%float /\
  Monophonic_setNote note time w =
  Ok RetThis
    (scheduled w (Signal_new 440%float Frequency)
       [SetValueAtTime note (toSeconds time)]).
Proof.
  intros Hopt w.
  destruct (constructed_portamento options) as [Hp Hf]. fold w in Hp, Hf.
  assert (Hzero : portamento (this w) = JNumber 0%float).
  { rewrite Hp. destruct options as [o | ]; simpl.
    - rewrite Hopt. reflexivity.
    - reflexivity. }
  split; [exact Hzero | ].
  rewrite (Monophonic_setNote_eq note time w _ Hf).
  unfold setNote_instructions. rewrite Hzero. reflexivity.
Qed.

(** X10. The glide test is the numeric [portamento > 0].  A portamento
    given as a string that does not convert to a positive number (a
    tempo-relative time such as ["8n"] converts to [NaN]) is kept by the
    constructor as it is and never glides: [setNote] schedules the one
    discrete set-point, and the string is never resolved to seconds. *)
Theorem string_portamento_never_glides
    (o : Options) (s : string) (note time : jsval) :
  o_portamento o = JString s ->
  PrimFloat.ltb 0%float (ToNumber s) = false ->
  let w := final (DuoSynth_new (Some o)) in
  portamento (this w) = JString s /\
  Monophonic_setNote note time w =
  Ok RetThis
    (scheduled w (Signal_new 440%float Frequency)
       [SetValueAtTime note (toSeconds time)]).
Proof.
  intros Hs Hnan w.
  destruct (constructed_portamento (Some o)) as [Hp Hf]. fold w in Hp, Hf.
  assert (Hstr : portamento (this w) = JString s).
  { rewrite Hp. simpl. rewrite Hs. reflexivity. }
  split; [exact Hstr | ].
  rewrite (Monophonic_setNote_eq note time w _ Hf).
  unfold setNote_instructions. rewrite Hstr. simpl js_gt_zero.
  rewrite Hnan. reflexivity.
Qed.

(** ** The base classes on their own *)

Lemma Monophonic_new_eq (options : Options) :
  Monophonic_new options =
  Ok tt
    {| this :=
         set_readonly ["volume"]
           (set_portamento
              (defaultArg (o_portamento options) Monophonic_defaults_portamento)
              (set_volume (Some (ParamSignal_new OOutputGain Decibels))
                 (set_output (Some OOutput) Instance_empty)));
       calls := [] |}.
Proof. reflexivity. Qed.

(** X11. [Tone.Monophonic] is abstract in what it owns as well: its
    constructor binds [output], [volume] and [portamento] but no
    [frequency].  On an instance that no subclass has completed,
    [setNote] raises a [TypeError] and schedules nothing, [triggerAttack]
    with the placeholder hooks raises it too, and [triggerRelease] with
    the placeholder hook does nothing and returns the instance. *)
Theorem bare_Monophonic_has_no_frequency
    (options : Options) (note time velocity : jsval) :
  exists w,
    Monophonic_new options = Ok tt w /\
    frequency (this w) = None /\
    output (this w) = Some OOutput /\
    portamento (this w) =
      defaultArg (o_portamento options) (JNumber 0%float) /\
    readonly (this w) = ["volume"] /\
    (exists reason,
        Monophonic_setNote note time w = Throw (TypeError reason) w) /\
    (exists reason,
        Monophonic_triggerAttack Monophonic_base note time velocity w =
        Throw (TypeError reason) w) /\
    Monophonic_triggerRelease Monophonic_base time w = Ok RetThis w.
Proof.
  eexists. split; [apply Monophonic_new_eq | ].
  repeat (split; [reflexivity | ]).
  assert (Hnote : forall w n t,
             frequency (this w) = None ->
             exists reason, Monophonic_setNote n t w = Throw (TypeError reason) w).
  { intros w n t Hf.
    destruct (Monophonic_setNote_null n t w Hf) as [[reason] He].
    exists reason. exact He. }
  split; [apply Hnote; reflexivity | ].
  split; [ | reflexivity].
  match goal with
  | |- exists r, Monophonic_triggerAttack _ _ _ _ ?w = _ =>
      destruct (Hnote w note (JNumber (toSeconds time)) eq_refl) as [reason He];
      exists reason;
      unfold Monophonic_triggerAttack, Monophonic_base,
        _triggerEnvelopeAttack, setNote, Monophonic__triggerEnvelopeAttack;
      unfold bind at 1; unfold ret at 1;
      apply bind_Throw; exact He
  end.
Qed.

(** ** What the constructor makes of the top-level options *)

(** X13. Unlike the per-voice volume, the top-level options reach their
    stages: the vibrato oscillator is built with the given rate (5 when
    absent), always with the range -50 to 50, and is started; the vibrato
    amount is written with the given value (0.5 when absent); the
    harmonicity stage holds the given ratio (1.5 when absent) and is
    tagged [Positive]; [vibratoRate] is the oscillator's own frequency. *)
Theorem top_level_options_reach_their_stages (o : Options) :
  let w := final (DuoSynth_new (Some o)) in
  _vibrato (this w) =
    Some {| lfo_frequency := defaultArg (o_vibratoRate o) (JNumber 5%float);
            lfo_min := (-50)%float; lfo_max := 50%float;
            lfo_started := true |} /\
  vibratoRate (this w) = Some OVibratoFrequency /\
  vibratoAmount (this w) =
    Some {| ps_param := OVibratoGainGain; ps_units := Gain;
            ps_written :=
              Some (defaultArg (o_vibratoAmount o) (JNumber 0.5%float)) |} /\
  harmonicity (this w) =
    Some {| mul_value := defaultArg (o_harmonicity o) (JNumber 1.5%float);
            mul_units := Some Positive |}.
Proof.
  intros w. unfold w. rewrite DuoSynth_new_eq.
  repeat split.
Qed.

(** ** After teardown *)

Lemma dead_rejects (op : operation) (w : World) :
  dead w ->
  exists reason w' k,
    run op w = Throw (TypeError reason) w' /\ dead w' /\
    calls w' =
      calls w ++ repeat (MethodCall OThis "Tone.prototype.dispose" []) k.
Proof.
  intros (H0 & H1 & Hf & Hvol).
  assert (D : dead w) by (repeat split; assumption).
  assert (Hsame : calls w = calls w ++ repeat (MethodCall OThis "Tone.prototype.dispose" []) 0).
  { simpl. rewrite app_nil_r. reflexivity. }
  assert (Hattack : forall note time velocity,
             exists reason,
               DuoSynth_triggerAttack note time velocity w =
               Throw (TypeError reason) w).
  { intros note time velocity. eexists.
    unfold DuoSynth_triggerAttack, DuoSynth_instrument, triggerAttack,
      Monophonic_triggerAttack, DuoSynth_monophonic, _triggerEnvelopeAttack,
      DuoSynth__triggerEnvelopeAttack, voice_call.
    unfold bind, deref. simpl voice_field. rewrite H0. reflexivity. }
  destruct op as [note time velocity | time | note duration time velocity
                 | note time | ]; simpl run.
  - destruct (Hattack note time velocity) as [reason He].
    exists reason, w, 0. split; [exact He | split; [exact D | exact Hsame]].
  - eexists. exists w, 0. split; [ | split; [exact D | exact Hsame]].
    unfold DuoSynth_triggerRelease, DuoSynth_instrument, triggerRelease,
      Monophonic_triggerRelease, DuoSynth_monophonic, _triggerEnvelopeRelease,
      DuoSynth__triggerEnvelopeRelease, voice_call.
    unfold bind, deref. simpl voice_field. rewrite H0. reflexivity.
  - destruct (Hattack note (JNumber (toSeconds time)) velocity) as [reason He].
    exists reason, w, 0. split; [ | split; [exact D | exact Hsame]].
    unfold DuoSynth_triggerAttackRelease, Instrument_triggerAttackRelease.
    apply bind_Throw. exact He.
  - destruct (Monophonic_setNote_null note time w Hf) as [[reason] He].
    exists reason, w, 0. split; [exact He | split; [exact D | exact Hsame]].
  - eexists. eexists. exists 1. split.
    + unfold DuoSynth_dispose, Monophonic_dispose, Instrument_dispose,
        Tone_dispose, _writable.
      unfold bind, emit, mutate, deref. simpl. rewrite Hvol. reflexivity.
    + split; [repeat split; simpl; assumption | reflexivity].
Qed.

(** X14. Use after [dispose] stays an error: whatever operations are
    tried afterwards, in whatever order and however many, each raises a
    [TypeError], the references stay null, nothing is scheduled, and no
    collaborator is reached except [Tone.prototype.dispose], which a
    repeated [dispose] calls again before it fails. *)
Theorem use_after_dispose_always_fails (w : World) (ops : list operation) :
  live w ->
  exists w',
    DuoSynth_dispose w = Ok RetThis w' /\
    Forall is_error (fst (run_all ops w')) /\
    dead (snd (run_all ops w')) /\
    frequency_automation (snd (run_all ops w')) = [] /\
    exists k,
      calls (snd (run_all ops w')) =
      calls w' ++ repeat (MethodCall OThis "Tone.prototype.dispose" []) k.
Proof.
  intros L. exists (disposed w).
  split; [apply DuoSynth_dispose_live, L | ].
  assert (D : dead (disposed w)) by (repeat split).
  revert D. generalize (disposed w). clear L w.
  induction ops as [| op rest IH]; intros w D.
  - simpl. split; [constructor | split; [exact D | split]].
    + unfold frequency_automation.
      destruct D as (_ & _ & Hf & _). rewrite Hf. reflexivity.
    + exists 0. simpl. rewrite app_nil_r. reflexivity.
  - destruct (dead_rejects op w D) as (reason & w1 & k1 & Hrun & D1 & Hc1).
    simpl. rewrite Hrun. simpl final.
    destruct (IH w1 D1) as (Hout & Hdead & Hauto & k2 & Hc2).
    destruct (run_all rest w1) as [os w2]. simpl in Hout, Hdead, Hauto, Hc2.
    simpl fst. simpl snd.
    split; [constructor; [exact I | exact Hout] | ].
    split; [exact Hdead | split; [exact Hauto | ]].
    exists (k1 + k2). rewrite Hc2, Hc1, <- app_assoc, repeat_app. reflexivity.
Qed.

(** ** Teardown in detail *)

(** X15. At the base layer, [volume] is frozen from construction on;
    [dispose] (which [Tone.Monophonic] inherits from [Tone.Instrument])
    calls the [Tone] teardown, disposes the volume signal, nulls
    [volume] and leaves it writable, without touching [portamento].  A
    second [dispose] raises a [TypeError]. *)
Theorem base_dispose_releases_volume (options : Options) :
  exists w w',
    Monophonic_new options = Ok tt w /\
    (exists reason,
        assign "volume" (set_volume None) w = Throw (TypeError reason) w) /\
    Monophonic_dispose w = Ok RetThis w' /\
    volume (this w') = None /\
    readonly (this w') = [] /\
    portamento (this w') = portamento (this w) /\
    calls w' =
      [MethodCall OThis "Tone.prototype.dispose" [];
       MethodCall OVolume "dispose" []] /\
    exists reason w'', Monophonic_dispose w' = Throw (TypeError reason) w''.
Proof.
  eexists.
  exists {| this :=
              set_readonly []
                (set_volume None
                   (set_readonly ["volume"]
                      (set_portamento
                         (defaultArg (o_portamento options)
                            Monophonic_defaults_portamento)
                         (set_volume (Some (ParamSignal_new OOutputGain Decibels))
                            (set_output (Some OOutput) Instance_empty)))));
            calls :=
              [MethodCall OThis "Tone.prototype.dispose" [];
               MethodCall OVolume "dispose" []] |}.
  split; [apply Monophonic_new_eq | ].
  split; [eexists; reflexivity | ].
  split; [reflexivity | ].
  repeat (split; [reflexivity | ]).
  eexists. eexists. reflexivity.
Qed.

(** X16. On a live instance [dispose] makes exactly nine calls, in this
    order: the [Tone] teardown, then [dispose] on the volume, on voice0,
    on voice1, on the frequency signal and on the vibrato oscillator,
    [disconnect] (not [dispose]) on the vibrato gain node, then [dispose]
    on the harmonicity stage and on the vibrato amount.  The private
    [_vibrato], [_vibratoGain] and [harmonicity] are nulled as well, every
    binding is writable again, and [portamento] and [_vibratoDelay] are
    kept. *)
Theorem dispose_releases_each_stage (w : World) :
  live w ->
  exists w',
    DuoSynth_dispose w = Ok RetThis w' /\
    calls w' =
      calls w ++
      [MethodCall OThis "Tone.prototype.dispose" [];
       MethodCall OVolume "dispose" [];
       MethodCall (OVoice V0) "dispose" [];
       MethodCall (OVoice V1) "dispose" [];
       MethodCall OFrequency "dispose" [];
       MethodCall OVibrato "dispose" [];
       MethodCall OVibratoGain "disconnect" [];
       MethodCall OHarmonicity "dispose" [];
       MethodCall OVibratoAmount "dispose" []] /\
    _vibrato (this w') = None /\
    _vibratoGain (this w') = None /\
    harmonicity (this w') = None /\
    readonly (this w') = [] /\
    portamento (this w') = portamento (this w) /\
    _vibratoDelay (this w') = _vibratoDelay (this w).
Proof.
  intros L. exists (disposed w). split.
  - apply DuoSynth_dispose_live, L.
  - unfold disposed, dispose_calls. simpl. repeat split.
Qed.

End Instruments.

(** * The model on concrete inputs *)

(** The default instance is live. *)
Lemma default_instance_live :
  live (final (DuoSynth_new clock0 MonoSynth_sample None)).
Proof. constructor; vm_compute; try discriminate; reflexivity. Defined.

(** The scenario of the defaults: an attack of A4 at 0 reaches both
    voices' envelopes and sets the pitch discretely. *)
Example default_attack_A4 :
  let w := final (DuoSynth_new clock0 MonoSynth_sample None) in
  DuoSynth_triggerAttack clock0 ToNumber_sample
    (JString "A4") (JNumber 0%float) JUndefined w =
  Ok RetThis
    (scheduled
       (called w (attack_calls (JNumber 0%float) JUndefined))
       (Signal_new 440%float Frequency)
       [SetValueAtTime (JString "A4") 0%float]).
Proof. intros w. vm_compute. reflexivity. Qed.

Lemma harmonicity_ratio_invariant_witness :
  let ops := [OpTriggerAttack (JNumber 220%float) (JNumber 1%float) JUndefined;
              OpTriggerRelease (JNumber 2%float)] in
  Forall not_dispose ops /\
  let w :=
    snd (run_all clock0 ToNumber_sample ops
           (final (DuoSynth_new clock0 MonoSynth_sample None))) in
  harmonicity_ratio ToNumber_sample w = 1.5%float /\
  pitch_input ToNumber_sample nat (fun _ _ => 440%float) w V0 7 = 440%float /\
  pitch_input ToNumber_sample nat (fun _ _ => 440%float) w V1 7 = 660%float.
Proof.
  intros ops.
  assert (F : Forall not_dispose ops).
  { repeat constructor; discriminate. }
  split; [exact F | ].
  destruct (harmonicity_ratio_invariant clock0 ToNumber_sample MonoSynth_sample
              nat (fun _ _ => 440%float) None ops 7 F)
    as (_ & _ & _ & Hratio & H0 & H1).
  cbv zeta.
  split; [rewrite Hratio; vm_compute; reflexivity | ].
  split; [exact H0 | ].
  rewrite H1, H0, Hratio. vm_compute. reflexivity.
Defined.

Lemma setNote_policy_witness :
  let w := final (DuoSynth_new clock0 MonoSynth_sample (Some options_glide)) in
  frequency (this w) = Some (Signal_new 440%float Frequency) /\
  Monophonic_setNote clock0 ToNumber_sample (JString "C4") (JNumber 2%float) w =
  Ok RetThis
    (scheduled w (Signal_new 440%float Frequency)
       [SetValueAtTime (JNumber 440%float) 2%float;
        ExponentialRampToValueAtTime (JString "C4") 2.5%float]).
Proof.
  intros w.
  assert (Hf : frequency (this w) = Some (Signal_new 440%float Frequency))
    by (vm_compute; reflexivity).
  split; [exact Hf | ].
  pose proof (setNote_policy clock0 ToNumber_sample (JString "C4")
                (JNumber 2%float) w _ Hf) as H.
  vm_compute in H. vm_compute. exact H.
Defined.

Lemma triggerAttackRelease_is_attack_then_release_witness :
  let w := final (DuoSynth_new clock0 MonoSynth_sample None) in
  live w /\
  exists w',
    DuoSynth_triggerAttackRelease clock0 ToNumber_sample
      (JString "C4") (JNumber 0.5%float) (JNumber 1%float) (JNumber 1%float) w =
    Ok RetThis w' /\ live w'.
Proof.
  intros w.
  split; [exact default_instance_live | ].
  exact (proj2 (triggerAttackRelease_is_attack_then_release clock0 ToNumber_sample)
           (JString "C4") (JNumber 0.5%float) (JNumber 1%float)
           (JNumber 1%float) w default_instance_live).
Defined.

Lemma Monophonic_triggerAttack_steps_witness :
  let w := final (DuoSynth_new clock0 MonoSynth_sample None) in
  live w /\
  exists w',
    Monophonic_triggerAttack clock0
      (DuoSynth_monophonic clock0 ToNumber_sample)
      (JString "C4") (JNumber 1%float) (JNumber 1%float) w =
    Ok RetThis w' /\ live w'.
Proof.
  intros w.
  split; [exact default_instance_live | ].
  exact (proj2 (Monophonic_triggerAttack_steps clock0 ToNumber_sample)
           (JString "C4") (JNumber 1%float) (JNumber 1%float)
           w default_instance_live).
Defined.

Lemma DuoSynth__triggerEnvelopeAttack_forwards_witness :
  let w := final (DuoSynth_new clock0 MonoSynth_sample None) in
  let voice :=
    MonoSynth_set_volume (JNumber (-10)%float)
      (MonoSynth_sample (Some DuoSynth_defaults_voice)) in
  voice0 (this w) = Some voice /\
  voice1 (this w) = Some voice /\
  DuoSynth__triggerEnvelopeAttack clock0
    (JNumber 1%float) (JNumber 0.8%float) w =
  Ok RetThis
    (called w
       [MethodCall (OVoiceEnvelope V0) "triggerAttack"
          [JNumber 1%float; JNumber 0.8%float];
        MethodCall (OVoiceEnvelope V1) "triggerAttack"
          [JNumber 1%float; JNumber 0.8%float];
        MethodCall (OVoiceFilterEnvelope V0) "triggerAttack" [JNumber 1%float];
        MethodCall (OVoiceFilterEnvelope V1) "triggerAttack" [JNumber 1%float]]).
Proof.
  intros w voice.
  assert (H0 : voice0 (this w) = Some voice) by (vm_compute; reflexivity).
  assert (H1 : voice1 (this w) = Some voice) by (vm_compute; reflexivity).
  split; [exact H0 | split; [exact H1 | ]].
  exact (DuoSynth__triggerEnvelopeAttack_forwards clock0
           (JNumber 1%float) (JNumber 0.8%float) w voice voice H0 H1).
Defined.

Lemma dispose_clears_and_disables_witness :
  let w := final (DuoSynth_new clock0 MonoSynth_sample None) in
  live w /\
  exists w',
    DuoSynth_dispose w = Ok RetThis w' /\
    (voice0 (this w') = None /\ voice1 (this w') = None /\
     frequency (this w') = None /\ vibratoAmount (this w') = None /\
     vibratoRate (this w') = None /\ volume (this w') = None) /\
    forall op : operation,
      exists reason w'',
        run clock0 ToNumber_sample op w' = Throw (TypeError reason) w''.
Proof.
  intros w.
  split; [exact default_instance_live | ].
  exact (dispose_clears_and_disables clock0 ToNumber_sample w
           default_instance_live).
Defined.

Lemma vibratoDelay_has_no_effect_witness :
  let ops := [OpTriggerAttackRelease (JString "C4") (JNumber 0.5%float)
                (JNumber 1%float) JUndefined;
              OpDispose] in
  same_but_vibratoDelay (options_delay 1%float) (options_delay 4%float) /\
  let wa :=
    final (DuoSynth_new clock0 MonoSynth_sample (Some (options_delay 1%float))) in
  let wb :=
    final (DuoSynth_new clock0 MonoSynth_sample (Some (options_delay 4%float))) in
  fst (run_all clock0 ToNumber_sample ops wa) =
  fst (run_all clock0 ToNumber_sample ops wb) /\
  forget_vibratoDelay (snd (run_all clock0 ToNumber_sample ops wa)) =
  forget_vibratoDelay (snd (run_all clock0 ToNumber_sample ops wb)).
Proof.
  intros ops.
  assert (S : same_but_vibratoDelay (options_delay 1%float) (options_delay 4%float)).
  { repeat split; reflexivity. }
  split; [exact S | ].
  exact (proj2 (vibratoDelay_has_no_effect clock0 ToNumber_sample MonoSynth_sample
                  (options_delay 1%float) (options_delay 4%float) ops S)).
Defined.

Lemma first_glide_starts_at_440_witness :
  let w0 := final (DuoSynth_new clock0 MonoSynth_sample (Some options_glide)) in
  js_gt_zero ToNumber_sample (portamento (this w0)) = true /\
  exists w1,
    Monophonic_setNote clock0 ToNumber_sample
      (JNumber 880%float) (JNumber 3%float) w0 = Ok RetThis w1 /\
    frequency_automation w1 =
      [SetValueAtTime (JNumber 440%float) 3%float;
       ExponentialRampToValueAtTime (JNumber 880%float) 3.5%float].
Proof.
  intros w0.
  assert (Hp : js_gt_zero ToNumber_sample (portamento (this w0)) = true)
    by (vm_compute; reflexivity).
  split; [exact Hp | ].
  destruct (first_glide_starts_at_440 clock0 ToNumber_sample MonoSynth_sample
              (Some options_glide) (JNumber 880%float) (JNumber 3%float) Hp)
    as (_ & _ & w1 & Hrun & Hlog).
  exists w1. split; [exact Hrun | ].
  rewrite Hlog. vm_compute. reflexivity.
Defined.

Lemma glide_keeps_earlier_automation_witness :
  let w0 := final (DuoSynth_new clock0 MonoSynth_sample (Some options_glide)) in
  let w1 :=
    final (Monophonic_setNote clock0 ToNumber_sample
             (JNumber 880%float) (JNumber 5%float) w0) in
  let f :=
    schedule_on (Signal_new 440%float Frequency)
      [SetValueAtTime (JNumber 440%float) 5%float;
       ExponentialRampToValueAtTime (JNumber 880%float) 5.5%float] in
  frequency (this w1) = Some f /\
  js_gt_zero ToNumber_sample (portamento (this w1)) = true /\
  exists w2,
    Monophonic_setNote clock0 ToNumber_sample
      (JNumber 660%float) (JNumber 1%float) w1 = Ok RetThis w2 /\
    frequency_automation w2 =
      [SetValueAtTime (JNumber 440%float) 5%float;
       ExponentialRampToValueAtTime (JNumber 880%float) 5.5%float;
       SetValueAtTime (JNumber 440%float) 1%float;
       ExponentialRampToValueAtTime (JNumber 660%float) 1.5%float].
Proof.
  intros w0 w1 f.
  assert (Hf : frequency (this w1) = Some f) by (vm_compute; reflexivity).
  assert (Hp : js_gt_zero ToNumber_sample (portamento (this w1)) = true)
    by (vm_compute; reflexivity).
  split; [exact Hf | split; [exact Hp | ]].
  destruct (glide_keeps_earlier_automation clock0 ToNumber_sample
              (JNumber 660%float) (JNumber 1%float) w1 f Hf Hp)
    as (w2 & Hrun & Hlog & _).
  exists w2. split; [exact Hrun | ].
  rewrite Hlog. vm_compute. reflexivity.
Defined.

(** C4, refuted as claimed.  On an instance built with a portamento of
    half a second, after a glide to 880 scheduled at 5, a glide to 660
    scheduled at 1 leaves the ramp that lands at 5.5 pending: nothing has
    cancelled it. *)
Lemma glide_cancels_later_points_counterexample :
  ~ glide_cancels_later_points clock0 ToNumber_sample.
Proof.
  intros claim.
  pose (w0 := final (DuoSynth_new clock0 MonoSynth_sample (Some options_glide))).
  pose (w1 := final (Monophonic_setNote clock0 ToNumber_sample
                       (JNumber 880%float) (JNumber 5%float) w0)).
  pose (w2 := final (Monophonic_setNote clock0 ToNumber_sample
                       (JNumber 660%float) (JNumber 1%float) w1)).
  assert (Hp : js_gt_zero ToNumber_sample (portamento (this w1)) = true)
    by (vm_compute; reflexivity).
  assert (Hrun : Monophonic_setNote clock0 ToNumber_sample
                   (JNumber 660%float) (JNumber 1%float) w1 = Ok RetThis w2)
    by (vm_compute; reflexivity).
  apply (claim (JNumber 660%float) (JNumber 1%float) w1 w2 Hp Hrun
           (ExponentialRampToValueAtTime (JNumber 880%float) 5.5%float)).
  - vm_compute. right. left. reflexivity.
  - vm_compute. reflexivity.
  - vm_compute. right. left. reflexivity.
Qed.

(** C5, the code at the failing input.  Built with
    [{voice0: {volume: -3}}] and a voice constructor that honours the
    option, voice0 leaves the [Tone.DuoSynth] constructor at -10, not at
    the -3 that was asked for: line 28 assigns the literal after the
    voice has been built. *)
Lemma voice_volume_option_is_overwritten :
  let w :=
    final (DuoSynth_new clock0 MonoSynth_sample (Some options_louder_voice0)) in
  ms_volume_value (MonoSynth_sample (Some voice_options_louder)) =
    JNumber (-3)%float /\
  option_map ms_volume_value (voice0 (this w)) = Some (JNumber (-10)%float) /\
  option_map ms_volume_value (voice0 (this w)) <> Some (JNumber (-3)%float).
Proof.
  intros w.
  destruct (DuoSynth_new_voice_volume clock0 MonoSynth_sample
              (Some options_louder_voice0)) as [H0 _].
  fold w in H0.
  split; [vm_compute; reflexivity | split; [exact H0 | ]].
  rewrite H0. intros E.
  apply (f_equal (fun o =>
           match o with
           | Some (JNumber x) => PrimFloat.ltb x (-5)%float
           | _ => false
           end)) in E.
  vm_compute in E. discriminate E.
Qed.

(** ** The further properties on concrete inputs *)

(** A note held for half a second from second 1, then a retrigger. *)
Lemma sample_operations_keep_going :
  Forall not_dispose
    [OpTriggerAttackRelease (JString "C4") (JNumber 0.5%float)
       (JNumber 1%float) JUndefined;
     OpSetNote (JString "E4") (JNumber 2%float)].
Proof. repeat constructor; discriminate. Defined.

Lemma graph_fixed_until_dispose_witness :
  let ops :=
    [OpTriggerAttackRelease (JString "C4") (JNumber 0.5%float)
       (JNumber 1%float) JUndefined;
     OpSetNote (JString "E4") (JNumber 2%float)] in
  Forall not_dispose ops /\
  List.length
    (edges (calls (snd (run_all clock0 ToNumber_sample ops
                          (final (DuoSynth_new clock0 MonoSynth_sample None))))))
  = 8.
Proof.
  intros ops.
  split; [exact sample_operations_keep_going | ].
  rewrite (graph_fixed_until_dispose clock0 ToNumber_sample MonoSynth_sample
             None ops sample_operations_keep_going).
  reflexivity.
Defined.

Lemma vibrato_synchronised_witness :
  let ops :=
    [OpTriggerAttackRelease (JString "C4") (JNumber 0.5%float)
       (JNumber 1%float) JUndefined;
     OpSetNote (JString "E4") (JNumber 2%float)] in
  Forall not_dispose ops /\
  let w :=
    snd (run_all clock0 ToNumber_sample ops
           (final (DuoSynth_new clock0 MonoSynth_sample None))) in
  vibrato_amount ToNumber_sample w = 0.5%float /\
  detune_input ToNumber_sample nat (fun _ _ => 50%float) w V0 7 = 25%float /\
  detune_input ToNumber_sample nat (fun _ _ => 50%float) w V1 7 = 25%float.
Proof.
  intros ops.
  split; [exact sample_operations_keep_going | ].
  destruct (vibrato_synchronised clock0 ToNumber_sample MonoSynth_sample
              nat (fun _ _ => 50%float) None ops 7
              sample_operations_keep_going)
    as (_ & _ & _ & Hamount & H0 & H1).
  cbv zeta.
  assert (H25 : detune_input ToNumber_sample nat (fun _ _ => 50%float)
                  (snd (run_all clock0 ToNumber_sample ops
                          (final (DuoSynth_new clock0 MonoSynth_sample None))))
                  V0 7 = 25%float).
  { rewrite H0, Hamount. vm_compute. reflexivity. }
  split; [rewrite Hamount; vm_compute; reflexivity | ].
  split; [exact H25 | ].
  rewrite H1. exact H25.
Defined.

Lemma dispose_severs_every_connection_witness :
  let ops :=
    [OpTriggerAttackRelease (JString "C4") (JNumber 0.5%float)
       (JNumber 1%float) JUndefined;
     OpSetNote (JString "E4") (JNumber 2%float)] in
  Forall not_dispose ops /\
  let w :=
    snd (run_all clock0 ToNumber_sample ops
           (final (DuoSynth_new clock0 MonoSynth_sample None))) in
  exists w', DuoSynth_dispose w = Ok RetThis w' /\ edges (calls w') = [].
Proof.
  intros ops.
  split; [exact sample_operations_keep_going | ].
  exact (dispose_severs_every_connection clock0 ToNumber_sample
           MonoSynth_sample None ops sample_operations_keep_going).
Defined.

Lemma exposed_bindings_are_frozen_witness :
  let ops :=
    [OpTriggerAttackRelease (JString "C4") (JNumber 0.5%float)
       (JNumber 1%float) JUndefined;
     OpSetNote (JString "E4") (JNumber 2%float)] in
  Forall not_dispose ops /\
  In "frequency" frozen_names /\
  let w :=
    snd (run_all clock0 ToNumber_sample ops
           (final (DuoSynth_new clock0 MonoSynth_sample None))) in
  (exists reason,
      assign "frequency" (set_frequency None) w = Throw (TypeError reason) w) /\
  assign "harmonicity" (set_harmonicity None) w =
  Ok tt {| this := set_harmonicity None (this w); calls := calls w |}.
Proof.
  intros ops.
  assert (Hin : In "frequency" frozen_names)
    by (right; right; right; left; reflexivity).
  split; [exact sample_operations_keep_going | split; [exact Hin | ]].
  destruct (exposed_bindings_are_frozen clock0 ToNumber_sample MonoSynth_sample
              None ops sample_operations_keep_going) as [Hfrozen Hfree].
  split.
  - exact (Hfrozen "frequency" (set_frequency None) Hin).
  - exact (Hfree "harmonicity" (set_harmonicity None) (or_introl eq_refl)).
Defined.

Lemma operations_only_append_witness :
  let ops :=
    [OpTriggerAttackRelease (JString "C4") (JNumber 0.5%float)
       (JNumber 1%float) JUndefined;
     OpSetNote (JString "E4") (JNumber 2%float)] in
  let w := final (DuoSynth_new clock0 MonoSynth_sample None) in
  live w /\
  frequency (this w) = Some (Signal_new 440%float Frequency) /\
  Forall not_dispose ops /\
  exists cs l,
    snd (run_all clock0 ToNumber_sample ops w) =
    called (scheduled w (Signal_new 440%float Frequency) l) cs /\
    Forall schedules_a_point l /\
    Forall triggers_a_voice cs /\
    Forall (fun o => o = inl RetThis) (fst (run_all clock0 ToNumber_sample ops w)).
Proof.
  intros ops w.
  assert (Hf : frequency (this w) = Some (Signal_new 440%float Frequency))
    by (vm_compute; reflexivity).
  split; [exact default_instance_live | split; [exact Hf | ]].
  split; [exact sample_operations_keep_going | ].
  exact (operations_only_append clock0 ToNumber_sample ops w _
           default_instance_live Hf sample_operations_keep_going).
Defined.

Lemma release_leaves_pitch_alone_witness :
  let w := final (DuoSynth_new clock0 MonoSynth_sample None) in
  let voice :=
    MonoSynth_set_volume (JNumber (-10)%float)
      (MonoSynth_sample (Some DuoSynth_defaults_voice)) in
  voice0 (this w) = Some voice /\
  voice1 (this w) = Some voice /\
  exists w',
    DuoSynth_triggerRelease clock0 ToNumber_sample JUndefined w =
    Ok RetThis w' /\
    this w' = this w /\
    frequency_automation w' = frequency_automation w /\
    calls w' =
      calls w ++ [MethodCall (OVoice V0) "triggerRelease" [JUndefined];
                  MethodCall (OVoice V1) "triggerRelease" [JUndefined]].
Proof.
  intros w voice.
  assert (H0 : voice0 (this w) = Some voice) by (vm_compute; reflexivity).
  assert (H1 : voice1 (this w) = Some voice) by (vm_compute; reflexivity).
  split; [exact H0 | split; [exact H1 | ]].
  exact (release_leaves_pitch_alone clock0 ToNumber_sample JUndefined w
           voice voice H0 H1).
Defined.

Lemma attack_uses_one_instant_witness :
  let w := final (DuoSynth_new clock0 MonoSynth_sample (Some options_glide)) in
  let voice :=
    MonoSynth_set_volume (JNumber (-10)%float)
      (MonoSynth_sample (Some DuoSynth_defaults_voice)) in
  (forall x, clock0 (JNumber x) = x) /\
  voice0 (this w) = Some voice /\
  voice1 (this w) = Some voice /\
  frequency (this w) = Some (Signal_new 440%float Frequency) /\
  frequency_automation
    (final (DuoSynth_triggerAttack clock0 ToNumber_sample
              (JString "C4") (JNumber 2%float) (JNumber 0.8%float) w)) =
  [SetValueAtTime (JNumber 440%float) 2%float;
   ExponentialRampToValueAtTime (JString "C4") 2.5%float].
Proof.
  intros w voice.
  assert (Hnum : forall x, clock0 (JNumber x) = x) by (intros x; reflexivity).
  assert (H0 : voice0 (this w) = Some voice) by (vm_compute; reflexivity).
  assert (H1 : voice1 (this w) = Some voice) by (vm_compute; reflexivity).
  assert (Hf : frequency (this w) = Some (Signal_new 440%float Frequency))
    by (vm_compute; reflexivity).
  split; [exact Hnum | split; [exact H0 | split; [exact H1 | ]]].
  split; [exact Hf | ].
  rewrite (attack_uses_one_instant clock0 ToNumber_sample
             (JString "C4") (JNumber 2%float) (JNumber 0.8%float)
             w voice voice _ Hnum H0 H1 Hf).
  vm_compute. reflexivity.
Defined.

Lemma attackRelease_schedule_witness :
  let w := final (DuoSynth_new clock0 MonoSynth_sample None) in
  let voice :=
    MonoSynth_set_volume (JNumber (-10)%float)
      (MonoSynth_sample (Some DuoSynth_defaults_voice)) in
  (forall x, clock0 (JNumber x) = x) /\
  voice0 (this w) = Some voice /\
  voice1 (this w) = Some voice /\
  frequency (this w) = Some (Signal_new 440%float Frequency) /\
  calls
    (final (DuoSynth_triggerAttackRelease clock0 ToNumber_sample
              (JString "C4") (JNumber 0.5%float) (JNumber 1%float)
              JUndefined w)) =
  calls w ++
  attack_calls (JNumber 1%float) JUndefined ++
  release_calls (JNumber 1.5%float).
Proof.
  intros w voice.
  assert (Hnum : forall x, clock0 (JNumber x) = x) by (intros x; reflexivity).
  assert (H0 : voice0 (this w) = Some voice) by (vm_compute; reflexivity).
  assert (H1 : voice1 (this w) = Some voice) by (vm_compute; reflexivity).
  assert (Hf : frequency (this w) = Some (Signal_new 440%float Frequency))
    by (vm_compute; reflexivity).
  split; [exact Hnum | split; [exact H0 | split; [exact H1 | ]]].
  split; [exact Hf | ].
  rewrite (attackRelease_schedule clock0 ToNumber_sample
             (JString "C4") (JNumber 0.5%float) (JNumber 1%float) JUndefined
             w voice voice _ Hnum H0 H1 Hf).
  vm_compute. reflexivity.
Defined.

Lemma default_portamento_never_glides_witness :
  let w :=
    final (DuoSynth_new clock0 MonoSynth_sample (Some (options_delay 2%float))) in
  o_portamento (options_delay 2%float) = JUndefined /\
  portamento (this w) = JNumber 0%float /\
  Monophonic_setNote clock0 ToNumber_sample (JString "C4") (JNumber 1%float) w =
  Ok RetThis
    (scheduled w (Signal_new 440%float Frequency)
       [SetValueAtTime (JString "C4") 1%float]).
Proof.
  intros w.
  split; [reflexivity | ].
  exact (default_portamento_never_glides clock0 ToNumber_sample MonoSynth_sample
           (Some (options_delay 2%float)) (JString "C4") (JNumber 1%float)
           eq_refl).
Defined.

Lemma string_portamento_never_glides_witness :
  let w :=
    final (DuoSynth_new clock0 MonoSynth_sample (Some options_string_glide)) in
  o_portamento options_string_glide = JString "8n" /\
  PrimFloat.ltb 0%float (ToNumber_sample "8n") = false /\
  portamento (this w) = JString "8n" /\
  Monophonic_setNote clock0 ToNumber_sample (JString "C4") (JNumber 1%float) w =
  Ok RetThis
    (scheduled w (Signal_new 440%float Frequency)
       [SetValueAtTime (JString "C4") 1%float]).
Proof.
  intros w.
  split; [reflexivity | split; [reflexivity | ]].
  exact (string_portamento_never_glides clock0 ToNumber_sample MonoSynth_sample
           options_string_glide "8n" (JString "C4") (JNumber 1%float)
           eq_refl eq_refl).
Defined.

Lemma use_after_dispose_always_fails_witness :
  let w := final (DuoSynth_new clock0 MonoSynth_sample None) in
  let ops :=
    [OpTriggerAttack (JString "C4") JUndefined JUndefined;
     OpDispose;
     OpTriggerRelease JUndefined] in
  live w /\
  exists w',
    DuoSynth_dispose w = Ok RetThis w' /\
    Forall is_error (fst (run_all clock0 ToNumber_sample ops w')) /\
    dead (snd (run_all clock0 ToNumber_sample ops w')).
Proof.
  intros w ops.
  split; [exact default_instance_live | ].
  destruct (use_after_dispose_always_fails clock0 ToNumber_sample w ops
              default_instance_live) as (w' & Hd & Herr & Hdead & _).
  exists w'. split; [exact Hd | split; [exact Herr | exact Hdead]].
Defined.

Lemma dispose_releases_each_stage_witness :
  let w := final (DuoSynth_new clock0 MonoSynth_sample None) in
  live w /\
  exists w',
    DuoSynth_dispose w = Ok RetThis w' /\
    List.length (calls w') = 17 /\
    harmonicity (this w') = None /\
    readonly (this w') = [].
Proof.
  intros w.
  split; [exact default_instance_live | ].
  destruct (dispose_releases_each_stage w default_instance_live)
    as (w' & Hd & Hc & _ & _ & Hh & Hro & _).
  exists w'. split; [exact Hd | ].
  split; [rewrite Hc; vm_compute; reflexivity | ].
  split; [exact Hh | exact Hro].
Defined.
